(** * SPDR: the deep-research loop, its memory and its deduplication utility

    A shallow embedding of the Python sources
      - [src/utils/embeddings.py]   (cosine similarity, nearest neighbour, dedup)
      - [src/utils/config.py]       (the defaults and their override from the
                                     environment)
      - [src/components/memory.py]  (ResearchMemory)
      - [src/components/tools.py]   (the news search and the query expansion)
      - [src/components/llm_interface.py] (ModelInterface)
      - [src/components/deep_search.py] (DeepResearcher)
      - [main.py], [example.py]     (the two entry points)
    followed by the properties proved about them.

    Conventions of the embedding.
      - Python [int] is [Z]; [%] and [//] are [Z.modulo] and [Z.div], which
        round towards minus infinity as Python does.
      - Floating-point numbers are idealised: a numpy scalar is a real
        number, an infinity or not-a-number ([npfloat]); there is no rounding.
      - Python [str] is [string]; a character is a code point below 256.
      - A [dict] is an association list in insertion order; what the model
        returns is JSON data ([json]).
      - An object that the code mutates ([self], [self.memory]) is passed in
        and returned.
      - External services (the language model behind [ModelInterface], the
        news backend, [input]) are parameters: functions on a hidden state
        that return a value or raise. The embedding model is a function from
        a text to its vector, and every batch sent to it is recorded.
      - The memory and the embedding model work on texts: a JSON value that
        is not a string raises [TypeError] where it reaches one of their
        [str] parameters.
      - Logging ([log_step], [logger]) and [time.sleep] are left out: they
        influence neither the memory nor any returned value. *)

From Stdlib Require Import ZArith List String Ascii Bool Lia Reals Lra.
From Stdlib Require Import Sorting.Sorted Sorting.Permutation.
Import ListNotations.

Local Open Scope string_scope.
Local Open Scope Z_scope.

(* ================================================================== *)
(** ** Python strings *)

Module PyStr.

(** [str.isspace] on code points below 256. *)
Definition isspace (c : ascii) : bool :=
  let n := nat_of_ascii c in
  ((9 <=? n) && (n <=? 13))%nat
  || ((28 <=? n) && (n <=? 32))%nat
  || (n =? 133)%nat || (n =? 160)%nat.

Definition is_empty (s : string) : bool :=
  match s with EmptyString => true | String _ _ => false end.

(** Truthiness of a string: [if s:]. *)
Definition truthy (s : string) : bool := negb (is_empty s).

Fixpoint lstrip (s : string) : string :=
  match s with
  | EmptyString => EmptyString
  | String c rest => if isspace c then lstrip rest else s
  end.

Fixpoint rstrip (s : string) : string :=
  match s with
  | EmptyString => EmptyString
  | String c rest =>
      let rest' := rstrip rest in
      if isspace c && is_empty rest' then EmptyString else String c rest'
  end.

(** [s.strip()] *)
Definition strip (s : string) : string := rstrip (lstrip s).

(** [s.split(sep)] for a one-character separator: never the empty list. *)
Fixpoint split (sep : ascii) (s : string) : list string :=
  match s with
  | EmptyString => [EmptyString]
  | String c rest =>
      if Ascii.eqb c sep then EmptyString :: split sep rest
      else match split sep rest with
           | piece :: pieces => String c piece :: pieces
           | [] => [String c EmptyString]
           end
  end.

Definition cons_char (c : ascii) (pieces : list string) : list string :=
  match pieces with
  | piece :: rest => String c piece :: rest
  | [] => [String c EmptyString]
  end.

(** [s.split(sep)] for the separator made of two newlines. *)
Fixpoint split_blank (s : string) : list string :=
  match s with
  | EmptyString => [EmptyString]
  | String c rest =>
      match rest with
      | String d rest2 =>
          if Ascii.eqb c (ascii_of_nat 10) && Ascii.eqb d (ascii_of_nat 10)
          then EmptyString :: split_blank rest2
          else cons_char c (split_blank rest)
      | EmptyString => [String c EmptyString]
      end
  end.

(** [s.find(c)]: the lowest index of [c], or -1. *)
Fixpoint find_from (c : ascii) (s : string) (i : Z) : Z :=
  match s with
  | EmptyString => -1
  | String d rest => if Ascii.eqb d c then i else find_from c rest (i + 1)
  end.

Definition find (c : ascii) (s : string) : Z := find_from c s 0.

(** [s.rfind(c)]: the highest index of [c], or -1. *)
Fixpoint rfind_from (c : ascii) (s : string) (i : Z) (last : Z) : Z :=
  match s with
  | EmptyString => last
  | String d rest =>
      rfind_from c rest (i + 1) (if Ascii.eqb d c then i else last)
  end.

Definition rfind (c : ascii) (s : string) : Z := rfind_from c s 0 (-1).

(** [s[lo:hi]] for [0 <= lo]. *)
Definition slice (lo hi : Z) (s : string) : string :=
  substring (Z.to_nat lo) (Z.to_nat (hi - lo)) s.

(** [sep.join(parts)] *)
Fixpoint join (sep : string) (parts : list string) : string :=
  match parts with
  | [] => EmptyString
  | [p] => p
  | p :: rest => p ++ sep ++ join sep rest
  end.

Definition newline : ascii := ascii_of_nat 10.
Definition nl : string := String newline EmptyString.

End PyStr.

(* ================================================================== *)
(** ** Python values that come back from the model: JSON data *)

#[warnings="-register-all"]
Inductive json : Type :=
| JNull
| JBool (b : bool)
| JInt (z : Z)
| JFloat (r : R)
| JStr (s : string)
| JList (items : list json)
| JDict (fields : list (string * json)).

(** A [Dict[str, Any]]: keys in insertion order. *)
Definition PyDict := list (string * json).

Fixpoint dict_get (d : PyDict) (key : string) : option json :=
  match d with
  | [] => None
  | (k, v) :: rest => if String.eqb k key then Some v else dict_get rest key
  end.

(** [key in d] *)
Definition dict_mem (d : PyDict) (key : string) : bool :=
  match dict_get d key with Some _ => true | None => false end.

(** [isinstance(v, list)] *)
Definition is_list (v : json) : bool :=
  match v with JList _ => true | _ => false end.

(* ================================================================== *)
(** ** Exceptions, the world and the monad of effectful code *)

(** [Exc cls msg] is any instance of a subclass of [Exception];
    [KeyboardInterrupt] and [SystemExit] derive from [BaseException] only. *)
Inductive PyExc : Type :=
| Exc (cls msg : string)
| KeyboardInterrupt
| SystemExit (code : Z).

(** [isinstance(e, Exception)], what [except Exception] catches. *)
Definition is_Exception (e : PyExc) : bool :=
  match e with Exc _ _ => true | _ => false end.

Inductive Result (A : Type) : Type :=
| Ok (a : A)
| Raise (e : PyExc).

Arguments Ok {A} a.
Arguments Raise {A} e.

(** What the program does that an observer can see besides its result. *)
Inductive Event : Type :=
| EmbedCall (texts : list string)      (* one batch sent to the embedding model *)
| Print (line : string).               (* one [print] to standard output *)

Record World (W : Type) : Type := mkWorld {
  ext : W;                    (* hidden state of the external services *)
  events : list Event         (* oldest first *)
}.

Arguments mkWorld {W} ext events.
Arguments ext {W} w.
Arguments events {W} w.

Definition M (W A : Type) : Type := World W -> Result A * World W.

Definition ret {W A} (a : A) : M W A := fun w => (Ok a, w).

Definition raise {W A} (e : PyExc) : M W A := fun w => (Raise e, w).

Definition bind {W A B} (c : M W A) (k : A -> M W B) : M W B :=
  fun w => match c w with
           | (Ok a, w') => k a w'
           | (Raise e, w') => (Raise e, w')
           end.

Declare Scope py_scope.
Delimit Scope py_scope with py.
Notation "x <- c ;; k" := (bind c (fun x => k))
  (at level 61, c at next level, right associativity) : py_scope.
Notation "c ;;; k" := (bind c (fun _ => k))
  (at level 61, right associativity) : py_scope.
Local Open Scope py_scope.

Definition emit {W} (e : Event) : M W unit :=
  fun w => (Ok tt, mkWorld (ext w) (events w ++ [e])).

(** Run an external service on the hidden state. *)
Definition call {W A} (f : W -> Result A * W) : M W A :=
  fun w => let (r, x) := f (ext w) in (r, mkWorld x (events w)).

(** [for x in xs: acc = body(acc, x)] *)
Fixpoint for_each {W A S} (xs : list A) (body : S -> A -> M W S) (acc : S)
  : M W S :=
  match xs with
  | [] => ret acc
  | x :: rest => acc' <- body acc x ;; for_each rest body acc'
  end.

(* ================================================================== *)
(** ** numpy on vectors of reals *)

Definition vec := list R.

(** A numpy floating-point scalar: a number, an infinity or not-a-number. *)
Inductive npfloat : Type :=
| Num (r : R)
| PInf
| NInf
| NaN.

Definition is_nan (a : npfloat) : bool :=
  match a with NaN => true | _ => false end.

Definition Rltb (x y : R) : bool := if Rlt_dec x y then true else false.
Definition Rleb (x y : R) : bool := if Rle_dec x y then true else false.

(** [a < b]: false as soon as one side is not-a-number. *)
Definition np_lt (a b : npfloat) : bool :=
  match a, b with
  | Num x, Num y => Rltb x y
  | NInf, Num _ => true
  | NInf, PInf => true
  | Num _, PInf => true
  | _, _ => false
  end.

(** [a >= t] for a finite Python float [t]. *)
Definition np_ge (a : npfloat) (t : R) : bool :=
  match a with
  | Num x => Rleb t x
  | PInf => true
  | NInf => false
  | NaN => false
  end.

(** [a / b] on numpy scalars made from reals: dividing by zero does not
    raise, it gives not-a-number for [0 / 0] and an infinity otherwise. *)
Definition np_divide (a b : R) : npfloat :=
  if Req_dec_T b 0%R then
    if Req_dec_T a 0%R then NaN
    else if Rlt_dec 0%R a then PInf else NInf
  else Num (a / b)%R.

Local Open Scope R_scope.

(** [np.dot(v1, v2)] for one-dimensional arrays of equal length. *)
Fixpoint np_dot (v1 v2 : vec) : R :=
  match v1, v2 with
  | x :: xs, y :: ys => x * y + np_dot xs ys
  | _, _ => 0
  end.

(** [np.linalg.norm(v)]: the L2 norm. *)
Definition np_linalg_norm (v : vec) : R := sqrt (np_dot v v).

Local Close Scope R_scope.

(** [np.argmax(xs)]: the first index of a maximal element, where
    not-a-number counts as maximal. *)
Fixpoint argmax_from (best_i : nat) (best : npfloat) (i : nat)
         (xs : list npfloat) : nat :=
  match xs with
  | [] => best_i
  | x :: rest =>
      if negb (is_nan best) && (is_nan x || np_lt best x)
      then argmax_from i x (S i) rest
      else argmax_from best_i best (S i) rest
  end.

Definition np_argmax (xs : list npfloat) : nat :=
  match xs with
  | [] => O
  | x :: rest => argmax_from O x 1%nat rest
  end.

(** [np.max(xs)]: the largest element, not-a-number as soon as one is. *)
Definition np_max2 (a b : npfloat) : npfloat :=
  if is_nan a then a
  else if is_nan b then b
  else if np_lt a b then b else a.

Definition np_max (xs : list npfloat) : npfloat :=
  match xs with
  | [] => NaN
  | x :: rest => fold_left np_max2 rest x
  end.

(** embeddings.py, [cosine_similarity]. *)
Definition cosine_similarity (vec1 vec2 : vec) : npfloat :=
  let dot_product := np_dot vec1 vec2 in
  let norm1 := np_linalg_norm vec1 in
  let norm2 := np_linalg_norm vec2 in
  np_divide dot_product (norm1 * norm2)%R.

(** [l[:k]] for any integer [k]. *)
Definition py_take {A} (k : Z) (l : list A) : list A :=
  if 0 <=? k then firstn (Z.to_nat k) l
  else firstn (Z.to_nat (Z.of_nat (List.length l) + k)) l.

(** [x in l] for strings (exact match). *)
Fixpoint str_in (x : string) (l : list string) : bool :=
  match l with
  | [] => false
  | y :: rest => String.eqb y x || str_in x rest
  end.

(** [l.remove(x)]: drops the first element equal to [x]. *)
Fixpoint list_remove (x : string) (l : list string) : list string :=
  match l with
  | [] => []
  | y :: rest => if String.eqb y x then rest else y :: list_remove x rest
  end.

(** [l.sort(key=lambda p: p[1], reverse=True)]: Python's sort is stable, and
    stays so under [reverse=True]. On keys that are numbers a stable sort is
    determined by the order of the keys; it is written here as an insertion
    sort. (With a not-a-number key the result of Python's merge sort depends
    on how it merges; the ranking below is meant for keys that are numbers.) *)
Fixpoint insert_desc {A} (x : A * npfloat) (l : list (A * npfloat))
  : list (A * npfloat) :=
  match l with
  | [] => [x]
  | y :: rest =>
      if np_lt (snd x) (snd y) then y :: insert_desc x rest
      else x :: y :: rest
  end.

Definition sort_by_score_desc {A} (l : list (A * npfloat))
  : list (A * npfloat) :=
  fold_right insert_desc [] l.

(* ================================================================== *)
(** ** Configuration (utils/config.py): the entries the core reads *)

Record Config : Type := mkConfig {
  MAX_STEPS : Z;
  TOKEN_BUDGET : Z;
  MAX_MEMORY_ITEMS : Z;
  SIMILARITY_THRESHOLD : R
}.

Definition DEFAULT_CONFIG : Config :=
  mkConfig 10 4096 100 (85 / 100)%R.

(* ================================================================== *)
(** ** components/memory.py: the data *)

Record MemoryItem : Type := mkItem {
  content : string;
  source : string;
  metadata : PyDict
}.

(** [MemoryItem.__str__] *)
Definition item_str (it : MemoryItem) : string :=
  content it ++ " (Source: " ++ source it ++ ")".

Record ResearchMemory : Type := mkMemory {
  max_items : Z;
  facts : list MemoryItem;
  questions : list string;
  answered_questions : list string;
  search_queries : list string;
  visited_sources : list string
}.

Definition set_facts (m : ResearchMemory) (v : list MemoryItem) :=
  mkMemory (max_items m) v (questions m) (answered_questions m)
           (search_queries m) (visited_sources m).

Definition set_questions (m : ResearchMemory) (v : list string) :=
  mkMemory (max_items m) (facts m) v (answered_questions m)
           (search_queries m) (visited_sources m).

Definition set_answered_questions (m : ResearchMemory) (v : list string) :=
  mkMemory (max_items m) (facts m) (questions m) v
           (search_queries m) (visited_sources m).

Definition set_search_queries (m : ResearchMemory) (v : list string) :=
  mkMemory (max_items m) (facts m) (questions m) (answered_questions m)
           v (visited_sources m).

Definition set_visited_sources (m : ResearchMemory) (v : list string) :=
  mkMemory (max_items m) (facts m) (questions m) (answered_questions m)
           (search_queries m) v.

(** [if len(l) > self.max_items: l.pop(0)] *)
Definition trim {A} (cap : Z) (l : list A) : list A :=
  if Z.of_nat (List.length l) >? cap then tl l else l.

(** One article as [FinanceNewsSearchTool.search] returns it. *)
Record Article : Type := mkArticle {
  a_title : string;
  a_content : string;
  a_source : string
}.

(** [get_summary]: the two counts the planner reads, and the other three. *)
Record Summary : Type := mkSummary {
  s_facts : Z;
  s_questions : Z;
  s_answered_questions : Z;
  s_search_queries : Z;
  s_visited_sources : Z
}.

Definition get_summary (m : ResearchMemory) : Summary :=
  mkSummary (Z.of_nat (List.length (facts m)))
            (Z.of_nat (List.length (questions m)))
            (Z.of_nat (List.length (answered_questions m)))
            (Z.of_nat (List.length (search_queries m)))
            (Z.of_nat (List.length (visited_sources m))).

Definition get_unanswered_questions (m : ResearchMemory) : list string :=
  questions m.

(** [mark_question_answered]: no embedding is involved. *)
Definition mark_question_answered (m : ResearchMemory) (question : string)
  : ResearchMemory :=
  if str_in question (questions m) then
    let m1 := set_questions m (list_remove question (questions m)) in
    let m2 := set_answered_questions m1 (answered_questions m1 ++ [question]) in
    set_answered_questions m2 (trim (max_items m2) (answered_questions m2))
  else m.

(* ================================================================== *)
(** ** components/deep_search.py and main.py: the data *)

Inductive ActionType : Type := SEARCH | READ | REASON | ANSWER.

(** The parameter dict of an action: string keys, string values. *)
Definition Params := list (string * string).

(** [params.get(key, default)] *)
Fixpoint params_get (params : Params) (key default : string) : string :=
  match params with
  | [] => default
  | (k, v) :: rest => if String.eqb k key then v else params_get rest key default
  end.

Record DeepResearcher : Type := mkResearcher {
  max_steps : Z;
  token_budget : Z;
  memory : ResearchMemory;
  current_step : Z;
  total_tokens_used : Z;
  research_query : string;
  research_complete : bool;
  answer : string
}.

Definition set_memory (self : DeepResearcher) (v : ResearchMemory) :=
  mkResearcher (max_steps self) (token_budget self) v (current_step self)
               (total_tokens_used self) (research_query self)
               (research_complete self) (answer self).

Definition set_current_step (self : DeepResearcher) (v : Z) :=
  mkResearcher (max_steps self) (token_budget self) (memory self) v
               (total_tokens_used self) (research_query self)
               (research_complete self) (answer self).

Definition set_research_complete (self : DeepResearcher) (v : bool) :=
  mkResearcher (max_steps self) (token_budget self) (memory self)
               (current_step self) (total_tokens_used self)
               (research_query self) v (answer self).

Definition set_answer (self : DeepResearcher) (v : string) :=
  mkResearcher (max_steps self) (token_budget self) (memory self)
               (current_step self) (total_tokens_used self)
               (research_query self) (research_complete self) v.

(** How the [while] loop of [research] was left. *)
Inductive LoopExit : Type :=
| ExitAnswered        (* [research_complete] became true *)
| ExitStepLimit       (* [current_step < max_steps] became false *)
| ExitBudget.         (* the [break] of the token-budget check *)

Record Args : Type := mkArgs {
  arg_query : string;
  arg_ticker : option string;
  arg_max_steps : Z;
  arg_verbose : bool
}.

(** What [parser.parse_args()] makes of the command line: the arguments, or
    [sys.exit(code)] (2 after a usage error, 0 after [--help]). *)
Inductive CommandLine : Type :=
| Parsed (args : Args)
| ParserExit (code : Z).

(** How the operating system sees the process end. *)
Inductive ProcessStatus : Type :=
| Exited (code : Z)
| KilledBySIGINT.

(* ================================================================== *)
(** ** Histories of a memory *)

(** One call on a [ResearchMemory]. *)
Inductive MemOp : Type :=
| OpAddFact (content0 source0 : string) (metadata0 : option PyDict)
| OpAddQuestion (question : string)
| OpMarkQuestionAnswered (question : string)
| OpAddSearchQuery (query : string)
| OpAddVisitedSource (source0 : string).


(* ================================================================== *)
(** ** utils/config.py and components/llm_interface.py: the data *)

(** A value of the configuration dict. *)
Inductive CfgVal : Type :=
| CStr (s : string)
| CInt (z : Z)
| CFloat (r : R)
| CBool (b : bool).

(** config.py, [DEFAULT_CONFIG]. *)
Definition DEFAULT_CONFIG_DICT : list (string * CfgVal) :=
  [("VLLM_MODEL_NAME", CStr "mistralai/Mistral-7B-Instruct-v0.2");
   ("VLLM_ENDPOINT", CStr "http://localhost:8000/v1");
   ("MAX_TOKENS", CInt 8192);
   ("TOKEN_BUDGET", CInt 4096);
   ("MAX_SEARCH_RESULTS", CInt 5);
   ("MAX_STEPS", CInt 10);
   ("MAX_MEMORY_ITEMS", CInt 100);
   ("EMBEDDING_MODEL", CStr "all-MiniLM-L6-v2");
   ("SIMILARITY_THRESHOLD", CFloat (85 / 100)%R)].

(** [d[key]] on a dict with string keys; [None] when the key is missing. *)
Fixpoint assoc_get {A} (d : list (string * A)) (key : string) : option A :=
  match d with
  | [] => None
  | (k, v) :: rest => if String.eqb k key then Some v else assoc_get rest key
  end.

(** The entries of the configuration that the core reads, as
    [config["MAX_STEPS"]] and the like give them. *)
Definition config_record (d : list (string * CfgVal)) : option Config :=
  match assoc_get d "MAX_STEPS", assoc_get d "TOKEN_BUDGET",
        assoc_get d "MAX_MEMORY_ITEMS", assoc_get d "SIMILARITY_THRESHOLD" with
  | Some (CInt steps), Some (CInt budget), Some (CInt items), Some (CFloat t) =>
      Some (mkConfig steps budget items t)
  | _, _, _, _ => None
  end.

(** The same Python type. *)
Definition same_type (a b : CfgVal) : bool :=
  match a, b with
  | CStr _, CStr _ => true
  | CInt _, CInt _ => true
  | CFloat _, CFloat _ => true
  | CBool _, CBool _ => true
  | _, _ => false
  end.

(** A chat message. *)
Inductive Message : Type :=
| SystemMessage (content0 : string)
| HumanMessage (content0 : string).

(** The Python type of a field of the dynamic model. *)
Inductive PyType : Type := TStr | TInt | TFloat | TBool | TListStr.

(** [l[start:]] for any integer [start]. *)
Definition py_from {A} (start : Z) (l : list A) : list A :=
  if start <? 0 then skipn (Z.to_nat (Z.of_nat (List.length l) + start)) l
  else skipn (Z.to_nat start) l.


(* ================================================================== *)
(** ** Stand-ins for the collaborators, to run the program on *)

Module Stub.

(** Every text is embedded as the same unit vector. *)
Definition encode_text (text : string) : vec := [1%R].

(** A model that always answers with the same synthesis. *)
Definition model_generate (prompt system_prompt : string) (x : unit)
  : Result string * unit :=
  (Ok "NVIDIA's outlook remains strong.", x).

(** A structured call that failed to parse and degraded to raw text. *)
Definition structured_raw_lines (prompt system_prompt : string)
           (schema : PyDict) (temperature : option R) (x : unit)
  : Result PyDict * unit :=
  (Ok [("text", JStr ("q1" ++ PyStr.nl ++ "q2" ++ PyStr.nl));
       ("error", JStr "Invalid json output")], x).

(** The user presses Ctrl-C while the model is being waited for. *)
Definition structured_interrupted (prompt system_prompt : string)
           (schema : PyDict) (temperature : option R) (x : unit)
  : Result PyDict * unit :=
  (Raise KeyboardInterrupt, x).

Definition yahoo_invoke (query : json) (x : unit) : Result string * unit :=
  (Ok ("NVIDIA beats estimates" ++ PyStr.nl ++ "Revenue grew."), x).

(** Two articles, separated by an empty line. *)
Definition yahoo_two_articles (query : json) (x : unit)
  : Result string * unit :=
  (Ok ("NVIDIA beats estimates" ++ PyStr.nl ++ "Revenue grew."
       ++ PyStr.nl ++ PyStr.nl
       ++ "AMD launches new chip" ++ PyStr.nl ++ "Shares rose."), x).

(** An embedding that tells the first article from every other text. *)
Definition encode_two (text : string) : vec :=
  if String.eqb text "NVIDIA beats estimates: Revenue grew."
  then [1%R; 0%R] else [0%R; 1%R].

(** The model's text is the same synthesis whatever it is asked: as a
    structured answer it does not parse and degrades to raw text. *)
Definition structured_synthesis (prompt system_prompt : string)
           (schema : PyDict) (temperature : option R) (x : unit)
  : Result PyDict * unit :=
  (Ok [("text", JStr "NVIDIA's outlook remains strong.");
       ("error", JStr "Invalid json output")], x).

Definition json_loads (text : string) : option json := None.

Definition import_deep_search (x : unit) : Result unit * unit := (Ok tt, x).

Definition py_input (prompt : string) (x : unit) : Result string * unit :=
  (Ok "1", x).

Definition py_int (text : string) : Result Z := Ok 1.

Definition world0 : World unit := mkWorld tt [].

(** [python main.py "NVIDIA outlook"] *)
Definition args0 : Args := mkArgs "NVIDIA outlook" None 10 false.

End Stub.

(* ================================================================== *)
(** ** The program, over its external collaborators *)

Section Program.

Variable W : Type.

(** The configuration in force ([get_config()]). *)
Variable config : Config.

(** The sentence-embedding model: one vector per text. *)
Variable encode_text : string -> vec.

(** embeddings.py, [compute_embeddings]: one batch, recorded as an event. *)
Definition compute_embeddings (texts : list string) : M W (list vec) :=
  emit (EmbedCall texts) ;;;
  ret (map encode_text texts).

(** embeddings.py, [find_most_similar]. *)
Definition find_most_similar (query : string) (candidates : list string)
  : M W (Z * npfloat) :=
  match candidates with
  | [] => ret (-1, Num 0)
  | _ :: _ =>
      let all_texts := query :: candidates in
      embeddings <- compute_embeddings all_texts ;;
      let query_embedding := hd [] embeddings in
      let candidate_embeddings := tl embeddings in
      let similarities :=
        map (fun candidate_embedding =>
               cosine_similarity query_embedding candidate_embedding)
            candidate_embeddings in
      let max_idx := np_argmax similarities in
      let max_similarity := nth max_idx similarities NaN in
      ret (Z.of_nat max_idx, max_similarity)
  end.

(** embeddings.py, [is_duplicate]. *)
Definition is_duplicate (query : string) (candidates : list string)
           (threshold : option R) : M W bool :=
  match candidates with
  | [] => ret false
  | _ :: _ =>
      let threshold :=
        match threshold with
        | None => SIMILARITY_THRESHOLD config
        | Some t => t
        end in
      r <- find_most_similar query candidates ;;
      let similarity := snd r in
      ret (np_ge similarity threshold)
  end.

(** memory.py, [ResearchMemory.__init__]. *)
Definition ResearchMemory_init : ResearchMemory :=
  mkMemory (MAX_MEMORY_ITEMS config) [] [] [] [] [].

(** memory.py, [add_fact]. *)
Definition add_fact (m : ResearchMemory) (content0 source0 : string)
           (metadata0 : option PyDict) : M W (bool * ResearchMemory) :=
  dup <- is_duplicate content0 (map content (facts m)) None ;;
  if dup then ret (false, m)
  else
    let item := mkItem content0 source0
                       (match metadata0 with Some d => d | None => [] end) in
    let m1 := set_facts m (facts m ++ [item]) in
    ret (true, set_facts m1 (trim (max_items m1) (facts m1))).

(** memory.py, [add_question]. *)
Definition add_question (m : ResearchMemory) (question : string)
  : M W (bool * ResearchMemory) :=
  dup <- is_duplicate question (questions m ++ answered_questions m)%list None ;;
  if dup then ret (false, m)
  else
    let m1 := set_questions m (questions m ++ [question]) in
    ret (true, set_questions m1 (trim (max_items m1) (questions m1))).

(** memory.py, [add_search_query]. *)
Definition add_search_query (m : ResearchMemory) (query : string)
  : M W (bool * ResearchMemory) :=
  dup <- is_duplicate query (search_queries m) None ;;
  if dup then ret (false, m)
  else
    let m1 := set_search_queries m (search_queries m ++ [query]) in
    ret (true, set_search_queries m1 (trim (max_items m1) (search_queries m1))).

(** memory.py, [add_visited_source]. *)
Definition add_visited_source (m : ResearchMemory) (source0 : string)
  : bool * ResearchMemory :=
  if str_in source0 (visited_sources m) then (false, m)
  else
    let m1 := set_visited_sources m (visited_sources m ++ [source0]) in
    (true, set_visited_sources m1 (trim (max_items m1) (visited_sources m1))).

(** memory.py, [get_relevant_facts]. *)
Definition get_relevant_facts (m : ResearchMemory) (query : string)
           (max_facts : Z) : M W (list MemoryItem) :=
  match facts m with
  | [] => ret []
  | _ :: _ =>
      let fact_texts := map content (facts m) in
      all_embeddings <- compute_embeddings (query :: fact_texts) ;;
      let query_embedding := hd [] all_embeddings in
      let fact_embeddings := tl all_embeddings in
      let similarities :=
        map (fun fact_embedding =>
               cosine_similarity query_embedding fact_embedding)
            fact_embeddings in
      let fact_similarities := combine (facts m) similarities in
      let fact_similarities := sort_by_score_desc fact_similarities in
      ret (map fst (py_take max_facts fact_similarities))
  end.

(* ------------------------------------------------------------------ *)
(** *** The language model and the news backend *)

(** [ModelInterface.generate(prompt, system_prompt)]. *)
Variable model_generate : string -> string -> W -> Result string * W.

(** [ModelInterface.generate_structured(prompt, system_prompt, json_schema,
    temperature)]: a well-formed record, or the degraded [{text, error}]. *)
Variable model_generate_structured :
  string -> string -> PyDict -> option R -> W -> Result PyDict * W.

(** [YahooFinanceNewsTool.invoke(query)]; the argument is whatever the
    query expansion returned. *)
Variable yahoo_invoke : json -> W -> Result string * W.

(** [json.loads]; [None] when it raises. *)
Variable json_loads : string -> option json.

(* ------------------------------------------------------------------ *)
(** *** components/tools.py *)

(** [FinanceNewsSearchTool.search]. *)
Definition finance_news_search (query : json) : M W (list Article) :=
  result <- call (yahoo_invoke query) ;;
  if negb (PyStr.truthy result) || PyStr.is_empty (PyStr.strip result) then ret []
  else
    let news_items := PyStr.split_blank result in
    ret (flat_map
           (fun item =>
              if negb (PyStr.truthy (PyStr.strip item)) then []
              else
                let lines := PyStr.split PyStr.newline (PyStr.strip item) in
                match lines with
                | [] => []
                | title :: more =>
                    let content0 :=
                      match more with
                      | [] => ""
                      | _ :: _ => PyStr.join PyStr.nl more
                      end in
                    [mkArticle title content0 "Yahoo Finance News"]
                end)
           news_items).

Definition expansion_system_prompt : string :=
  "You are a query expansion expert. Your task is to expand a given query into multiple related queries that would help gather comprehensive information about the topic. Follow these guidelines:"
  ++ PyStr.nl ++ "1. Generate search queries that cover different aspects of the topic."
  ++ PyStr.nl ++ "2. Ensure each query is specific and focused."
  ++ PyStr.nl ++ "3. Include variations using different terminology."
  ++ PyStr.nl ++ "4. Consider related topics that would provide useful context."
  ++ PyStr.nl ++ "5. Output ONLY the expanded queries in a JSON list format, nothing else.".

Definition expansion_user_prompt (query : string) (context : option string)
  : string :=
  let user_prompt := "Original query: " ++ query in
  let user_prompt :=
    match context with
    | Some c => if PyStr.truthy c
                then user_prompt ++ PyStr.nl ++ "Context: " ++ c
                else user_prompt
    | None => user_prompt
    end in
  user_prompt ++ PyStr.nl
  ++ "Generate 3-5 expanded search queries that will help find comprehensive information about this topic.".

Definition expansion_schema : PyDict :=
  [("queries",
    JDict [("type", JStr "array");
           ("description", JStr "List of expanded search queries");
           ("items", JDict [("type", JStr "string")])])].

(** The [try:] block of [expand_query]: [Some qs] when it returns [qs],
    [None] when it falls through or its bare [except:] swallows an error. *)
Definition bracketed_list (text : string) : option (list json) :=
  let start_idx := PyStr.find "[" text in
  let end_idx := PyStr.rfind "]" text in
  if (start_idx >=? 0) && (end_idx >? start_idx) then
    let json_str := PyStr.slice start_idx (end_idx + 1) text in
    match json_loads json_str with
    | Some (JList expanded_queries) => Some expanded_queries
    | _ => None
    end
  else None.

(** The comprehension [line.strip() for line in lines if line.strip()]. *)
Definition stripped_lines (text : string) : list string :=
  let lines := PyStr.split PyStr.newline text in
  map PyStr.strip (filter (fun line => PyStr.truthy (PyStr.strip line)) lines).

(** What [expand_query] does with the model's response. *)
Definition extract_queries (query : string) (response : PyDict)
  : Result (list json) :=
  match dict_get response "queries" with
  | Some (JList qs) => Ok qs
  | _ =>
      match dict_get response "text" with
      | Some (JStr text) =>
          match bracketed_list text with
          | Some expanded_queries => Ok expanded_queries
          | None =>
              match stripped_lines text with
              | [] => Ok [JStr query]
              | queries => Ok (map JStr queries)
              end
          end
      | Some _ =>
          (* [.find] fails inside the [try]; [.split] fails after it *)
          Raise (Exc "AttributeError" "object has no attribute 'split'")
      | None => Ok [JStr query]
      end
  end.

(** [QueryExpansionTool.expand_query]. *)
Definition expand_query (query : string) (context : option string)
  : M W (list json) :=
  response <- call (model_generate_structured
                      (expansion_user_prompt query context)
                      expansion_system_prompt expansion_schema
                      (Some (5 / 10)%R)) ;;
  match extract_queries query response with
  | Ok qs => ret qs
  | Raise e => raise e
  end.

(* ------------------------------------------------------------------ *)
(** *** components/deep_search.py *)

(** [max_steps or self.config["MAX_STEPS"]]: [None] and [0] are falsy. *)
Definition or_default (v : option Z) (default : Z) : Z :=
  match v with
  | Some z => if z =? 0 then default else z
  | None => default
  end.

(** [DeepResearcher.__init__]. *)
Definition DeepResearcher_init (max_steps0 : option Z) : DeepResearcher :=
  mkResearcher (or_default max_steps0 (MAX_STEPS config))
               (TOKEN_BUDGET config)
               ResearchMemory_init
               0 0 "" false "".

(** [_plan_next_action]; [questions[0]] raises on an empty list. *)
Definition _plan_next_action (self : DeepResearcher)
  : Result (ActionType * Params) :=
  let memory_summary := get_summary (memory self) in
  let facts_count := s_facts memory_summary in
  let questions_count := s_questions memory_summary in
  if facts_count =? 0 then
    let query := research_query self in
    Ok (SEARCH, [("query", query)])
  else if questions_count >? 0 then
    match get_unanswered_questions (memory self) with
    | [] => Raise (Exc "IndexError" "list index out of range")
    | question :: _ =>
        if (current_step self mod 3 =? 0) || (facts_count <? 3) then
          Ok (SEARCH, [("query", question)])
        else
          Ok (REASON, [("focus_question", question)])
    end
  else if (facts_count >=? 3) || (current_step self >=? max_steps self / 2) then
    Ok (ANSWER, [])
  else
    Ok (SEARCH, [("query", research_query self)]).

(** A value that reaches a [str] parameter of the memory: the memory and the
    embedding model work on texts, anything else is a [TypeError]. *)
Definition expect_str (v : json) : M W string :=
  match v with
  | JStr s => ret s
  | _ => raise (Exc "TypeError" "expected str")
  end.

(** [_execute_search]. *)
Definition _execute_search (self : DeepResearcher) (params : Params)
  : M W DeepResearcher :=
  let query := params_get params "query" (research_query self) in
  expanded_queries <- expand_query query None ;;
  r <- add_search_query (memory self) query ;;
  let m1 := snd r in
  all_articles <-
    for_each expanded_queries
      (fun all_articles expanded_query =>
         articles <- finance_news_search expanded_query ;;
         ret (all_articles ++ articles)%list)
      [] ;;
  m2 <-
    for_each all_articles
      (fun m article =>
         let source0 := a_source article ++ " - " ++ a_title article in
         let content0 := a_title article ++ ": " ++ a_content article in
         r <- add_fact m content0 source0 None ;;
         ret (snd r))
      m1 ;;
  ret (set_memory self m2).

(** [_execute_read]: only logs. *)
Definition _execute_read (self : DeepResearcher) (params : Params)
  : M W DeepResearcher :=
  ret self.

Definition reason_system_prompt : string :=
  "You are a financial researcher analyzing information about stocks and markets. "
  ++ PyStr.nl ++ "Your task is to analyze the provided facts, extract insights, and identify gaps in information."
  ++ PyStr.nl ++ "Follow these guidelines:"
  ++ PyStr.nl ++ "1. Analyze the facts to extract key insights relevant to the focus question."
  ++ PyStr.nl ++ "2. Identify important connections or patterns in the data."
  ++ PyStr.nl ++ "3. List follow-up questions that would help fill gaps in knowledge."
  ++ PyStr.nl ++ "4. Keep your analysis focused on the specific focus question.".

(** ["\n".join([f"- {fact}" for fact in facts])] *)
Definition bulleted (items : list MemoryItem) : string :=
  PyStr.join PyStr.nl (map (fun fact => "- " ++ item_str fact) items).

Definition reason_user_prompt (focus_question facts_str : string) : string :=
  "Focus Question: " ++ focus_question ++ PyStr.nl
  ++ PyStr.nl ++ "Facts:"
  ++ PyStr.nl ++ facts_str ++ PyStr.nl
  ++ PyStr.nl ++ "Analyze these facts to provide insights about the focus question. Then identify 2-3 specific follow-up questions that would help fill gaps in knowledge.".

Definition reason_schema : PyDict :=
  [("insights",
    JDict [("type", JStr "array");
           ("description", JStr "Key insights extracted from the facts");
           ("items", JDict [("type", JStr "string")])]);
   ("follow_up_questions",
    JDict [("type", JStr "array");
           ("description", JStr "Follow-up questions to fill knowledge gaps");
           ("items", JDict [("type", JStr "string")])])].

(** [_execute_reason]. *)
Definition _execute_reason (self : DeepResearcher) (params : Params)
  : M W DeepResearcher :=
  let focus_question := params_get params "focus_question" (research_query self) in
  relevant_facts <- get_relevant_facts (memory self) focus_question 5 ;;
  let facts_str := bulleted relevant_facts in
  response <- call (model_generate_structured
                      (reason_user_prompt focus_question facts_str)
                      reason_system_prompt reason_schema None) ;;
  m1 <-
    match dict_get response "insights" with
    | Some (JList insights) =>
        for_each insights
          (fun m insight =>
             text <- expect_str insight ;;
             r <- add_fact m text "Reasoning" None ;;
             ret (snd r))
          (memory self)
    | _ => ret (memory self)
    end ;;
  m2 <-
    match dict_get response "follow_up_questions" with
    | Some (JList follow_ups) =>
        for_each follow_ups
          (fun m question =>
             text <- expect_str question ;;
             r <- add_question m text ;;
             ret (snd r))
          m1
    | _ => ret m1
    end ;;
  ret (set_memory self (mark_question_answered m2 focus_question)).

Definition answer_system_prompt : string :=
  "You are a financial research analyst providing insights based on information gathered. "
  ++ PyStr.nl ++ "Your task is to synthesize the provided facts into a comprehensive, well-structured answer."
  ++ PyStr.nl ++ "Follow these guidelines:"
  ++ PyStr.nl ++ "1. Focus on directly answering the original research question."
  ++ PyStr.nl ++ "2. Organize your response logically with clear sections if needed."
  ++ PyStr.nl ++ "3. Be specific and cite information sources where relevant."
  ++ PyStr.nl ++ "4. Acknowledge limitations or uncertainties in the available information."
  ++ PyStr.nl ++ "5. Provide actionable conclusions or recommendations if appropriate.".

Definition answer_user_prompt (query facts_str : string) : string :=
  "Research Question: " ++ query ++ PyStr.nl
  ++ PyStr.nl ++ "Facts collected during research:"
  ++ PyStr.nl ++ facts_str ++ PyStr.nl
  ++ PyStr.nl ++ "Based on these facts, provide a comprehensive answer to the research question.".

(** [_generate_final_answer]. *)
Definition _generate_final_answer (self : DeepResearcher) : M W DeepResearcher :=
  let facts0 := facts (memory self) in
  let facts_str := bulleted facts0 in
  answer0 <- call (model_generate
                     (answer_user_prompt (research_query self) facts_str)
                     answer_system_prompt) ;;
  ret (set_answer self answer0).

(** [_execute_answer]. *)
Definition _execute_answer (self : DeepResearcher) (params : Params)
  : M W DeepResearcher :=
  _generate_final_answer self.

(** The [while] loop of [research]; [None] when [fuel] iterations were not
    enough to leave it. *)
Fixpoint research_loop (fuel : nat) (self : DeepResearcher)
  : M W (option (LoopExit * DeepResearcher)) :=
  match fuel with
  | O => ret None
  | S fuel' =>
      if negb (research_complete self) && (current_step self <? max_steps self)
      then
        let self := set_current_step self (current_step self + 1) in
        if total_tokens_used self >=? token_budget self then
          ret (Some (ExitBudget, self))
        else
          match _plan_next_action self with
          | Raise e => raise e
          | Ok (action, action_params) =>
              self' <-
                match action with
                | SEARCH => _execute_search self action_params
                | READ => _execute_read self action_params
                | REASON => _execute_reason self action_params
                | ANSWER =>
                    s <- _execute_answer self action_params ;;
                    ret (set_research_complete s true)
                end ;;
              research_loop fuel' self'
          end
      else
        ret (Some (if research_complete self then ExitAnswered
                   else ExitStepLimit, self))
  end.

(** The state [research] starts its loop from. *)
Definition research_reset (self : DeepResearcher) (query : string)
  : DeepResearcher :=
  mkResearcher (max_steps self) (token_budget self) (memory self)
               0 0 query false "".

(** [research] with a bound on the iterations of its loop. *)
Definition research_with (fuel : nat) (self : DeepResearcher) (query : string)
  : M W (option (string * DeepResearcher)) :=
  let self := research_reset self query in
  r <- add_question ResearchMemory_init query ;;
  let self := set_memory self (snd r) in
  out <- research_loop fuel self ;;
  match out with
  | None => ret None
  | Some (_, self) =>
      self <- (if negb (research_complete self)
               then _generate_final_answer self
               else ret self) ;;
      ret (Some (answer self, self))
  end.

(** The state in which [research] enters its loop: everything reset and the
    query as the only open question of a fresh memory. *)
Definition research_start (self : DeepResearcher) (query : string)
  : DeepResearcher :=
  set_memory (research_reset self query)
             (set_questions ResearchMemory_init
                            (trim (MAX_MEMORY_ITEMS config) [query])).

(** What [research] does once its loop is left in state [s]. *)
Definition research_finish (s : DeepResearcher)
  : M W (option (string * DeepResearcher)) :=
  s' <- (if negb (research_complete s)
         then _generate_final_answer s
         else ret s) ;;
  ret (Some (answer s', s')).

(** Iterations that always suffice: each one increases [current_step]. *)
Definition enough_fuel (self : DeepResearcher) : nat :=
  S (Z.to_nat (max_steps self)).

(** [DeepResearcher.research]. *)
Definition research (self : DeepResearcher) (query : string)
  : M W (option (string * DeepResearcher)) :=
  research_with (enough_fuel self) self query.

(* ------------------------------------------------------------------ *)
(** *** main.py *)

(** [from src.components.deep_search import DeepResearcher]: loads the
    third-party packages, which may fail. *)
Variable import_deep_search : W -> Result unit * W.

Definition print (line : string) : M W unit := emit (Print line).

(** [try: body  except Exception as e: handler(e)] *)
Definition try_except_Exception {A} (body : M W A) (handler : PyExc -> M W A)
  : M W A :=
  fun w =>
    match body w with
    | (Raise e, w') => if is_Exception e then handler e w' else (Raise e, w')
    | (Ok a, w') => (Ok a, w')
    end.

(** [str(e)] *)
Definition exc_str (e : PyExc) : string :=
  match e with
  | Exc _ msg => msg
  | KeyboardInterrupt => ""
  | SystemExit _ => ""
  end.

(** [c * n] for a one-character string [c]. *)
Fixpoint str_repeat (c : ascii) (n : nat) : string :=
  match n with
  | O => EmptyString
  | S n' => String c (str_repeat c n')
  end.

(** The body of the [try] of [main]; it ends at the [return 0] that follows
    the [try]. [None] only if the loop bound of [research] were too small. *)
Definition main_try_body (args : Args) : M W (option Z) :=
  call import_deep_search ;;;
  let researcher := DeepResearcher_init (Some (arg_max_steps args)) in
  let query := arg_query args in
  let query :=
    match arg_ticker args with
    | Some ticker =>
        if PyStr.truthy ticker
        then "Regarding " ++ ticker ++ " stock: " ++ query
        else query
    | None => query
    end in
  print ("Researching: " ++ query) ;;;
  print (str_repeat "-" 50) ;;;
  out <- research researcher query ;;
  match out with
  | None => ret None
  | Some (result, _) =>
      print (PyStr.nl ++ "Research Results:") ;;;
      print (str_repeat "=" 50) ;;;
      print result ;;;
      ret (Some 0)
  end.

(** main.py, [main()]: the value it returns, or the exception that leaves
    it. *)
Definition main (cmdline : CommandLine) : M W (option Z) :=
  match cmdline with
  | ParserExit code => raise (SystemExit code)
  | Parsed args =>
      try_except_Exception
        (main_try_body args)
        (fun e =>
           print ("Error: " ++ exc_str e) ;;;
           ret (Some 1))
  end.

(** [input(prompt)]: a line typed by the user. *)
Variable py_input : string -> W -> Result string * W.

(** [int(text)]; raises [ValueError] on anything but an integer literal. *)
Variable py_int : string -> Result Z.

Definition EXAMPLE_QUERIES : list string :=
  ["What are the recent developments and future outlook for NVIDIA stock?";
   "What factors might affect Apple's stock price in the next quarter?";
   "How might interest rate changes impact bank stocks?";
   "What are the growth prospects for AI-related stocks?";
   "How are EV stocks performing and what is their outlook?"].

(** [try: body  except KeyboardInterrupt: h1  except Exception as e: h2(e)] *)
Definition try_except_Interrupt_Exception {A} (body : M W A)
           (on_interrupt : M W A) (on_exception : PyExc -> M W A) : M W A :=
  fun w =>
    match body w with
    | (Raise KeyboardInterrupt, w') => on_interrupt w'
    | (Raise e, w') =>
        if is_Exception e then on_exception e w' else (Raise e, w')
    | (Ok a, w') => (Ok a, w')
    end.

(** The body of the [try] of the interactive entry point. *)
Definition example_try_body : M W (option Z) :=
  text <- call (py_input (PyStr.nl
                          ++ "Select a query (1-5) or enter 0 to input your own: ")) ;;
  choice <- (match py_int text with Ok z => ret z | Raise e => raise e end) ;;
  query <-
    (if choice =? 0 then
       call (py_input (PyStr.nl ++ "Enter your research query: "))
     else if (1 <=? choice) && (choice <=? Z.of_nat (List.length EXAMPLE_QUERIES))
     then ret (nth (Z.to_nat (choice - 1)) EXAMPLE_QUERIES "")
     else
       print "Invalid choice. Using the first example query." ;;;
       ret (nth 0 EXAMPLE_QUERIES "")) ;;
  let researcher := DeepResearcher_init None in
  print (PyStr.nl ++ "Researching: " ++ query) ;;;
  print (str_repeat "-" 50) ;;;
  out <- research researcher query ;;
  match out with
  | None => ret None
  | Some (result, _) =>
      print (PyStr.nl ++ "Research Results:") ;;;
      print (str_repeat "=" 50) ;;;
      print result ;;;
      ret (Some 0)
  end.

(** example.py, [main()]: the sibling entry point. *)
Definition example_main : M W (option Z) :=
  call import_deep_search ;;;
  print "Stock Price Reasoner with Deep Research" ;;;
  print (str_repeat "=" 50) ;;;
  print (PyStr.nl ++ "Available example queries:") ;;;
  for_each (combine ["1"; "2"; "3"; "4"; "5"] EXAMPLE_QUERIES)
           (fun _ line => print (fst line ++ ". " ++ snd line)) tt ;;;
  try_except_Interrupt_Exception
    example_try_body
    (print (PyStr.nl ++ "Research interrupted by user.") ;;; ret (Some 1))
    (fun e => print ("Error: " ++ exc_str e) ;;; ret (Some 1)).

(** [sys.exit(value)] for what an entry point returned or raised, under
    CPython 3.8 or later: a [SystemExit] sets the exit code, an uncaught
    [KeyboardInterrupt] ends the process through the interrupt signal, any
    other uncaught exception prints a traceback and exits with 1. *)
Definition process_status (r : Result (option Z)) : option ProcessStatus :=
  match r with
  | Ok (Some code) => Some (Exited code)
  | Ok None => None
  | Raise (SystemExit code) => Some (Exited code)
  | Raise KeyboardInterrupt => Some KilledBySIGINT
  | Raise (Exc _ _) => Some (Exited 1)
  end.

(** [python main.py ...] *)
Definition run_main (cmdline : CommandLine) (w : World W)
  : option ProcessStatus :=
  process_status (fst (main cmdline w)).

(** [python example.py] *)
Definition run_example (w : World W) : option ProcessStatus :=
  process_status (fst (example_main w)).

(* ------------------------------------------------------------------ *)
(** *** The rest of embeddings.py and memory.py *)


(** memory.py, [get_formatted_facts]. *)
Definition get_formatted_facts (m : ResearchMemory) (max_facts : option Z)
  : string :=
  let facts_to_format := facts m in
  let facts_to_format :=
    match max_facts with
    | Some k => py_from (- k) facts_to_format
    | None => facts_to_format
    end in
  PyStr.join PyStr.nl (map (fun fact => "- " ++ item_str fact) facts_to_format).

(* ------------------------------------------------------------------ *)
(** *** utils/config.py *)

(** [float(text)]; raises [ValueError] on anything but a number. *)
Variable py_float : string -> Result R.

(** The new value of one entry that the environment overrides. *)
Definition convert_env (default : CfgVal) (env_value : string) : Result CfgVal :=
  match default with
  | CInt _ | CBool _ =>
      (* [isinstance(True, int)] holds: a bool is converted with [int] *)
      match py_int env_value with Ok z => Ok (CInt z) | Raise e => Raise e end
  | CFloat _ =>
      match py_float env_value with Ok r => Ok (CFloat r) | Raise e => Raise e end
  | CStr _ => Ok (CStr env_value)
  end.

(** The loop of [get_config] over the keys of the defaults, with
    [os.environ] as [env]. *)
Fixpoint override_from_env (env : list (string * string))
         (defaults : list (string * CfgVal))
  : Result (list (string * CfgVal)) :=
  match defaults with
  | [] => Ok []
  | (key, v) :: rest =>
      match (match assoc_get env key with
             | Some env_value => convert_env v env_value
             | None => Ok v
             end) with
      | Raise e => Raise e
      | Ok v' =>
          match override_from_env env rest with
          | Ok rest' => Ok ((key, v') :: rest')
          | Raise e => Raise e
          end
      end
  end.

(** config.py, [get_config]. *)
Definition get_config (env : list (string * string))
  : Result (list (string * CfgVal)) :=
  override_from_env env DEFAULT_CONFIG_DICT.

(* ------------------------------------------------------------------ *)
(** *** components/llm_interface.py *)

(** [self.llm.invoke(messages, **kwargs)]: the content of the reply. *)
Variable llm_invoke : list Message -> option R -> W -> Result string * W.

(** [(self.llm | parser).invoke(messages, **kwargs)]: the reply parsed as
    JSON. *)
Variable chain_invoke : list Message -> option R -> W -> Result json * W.

(** [parser.get_format_instructions()] for the fields of the dynamic model. *)
Variable get_format_instructions : list (string * (PyType * json)) -> string.

(** [ModelInterface.generate]. *)
Definition ModelInterface_generate (prompt : string)
           (system_prompt : option string) (temperature : option R)
  : M W string :=
  let messages :=
    match system_prompt with
    | Some sp => if PyStr.truthy sp then [SystemMessage sp] else []
    | None => []
    end in
  let messages := (messages ++ [HumanMessage prompt])%list in
  call (llm_invoke messages temperature).

(** One field of the dynamic model: its type and its description. *)
Definition schema_field (value : json) : PyType * json :=
  match value with
  | JDict fields =>
      match dict_get fields "type" with
      | Some ty =>
          let description :=
            match dict_get fields "description" with
            | Some d => d
            | None => JStr ""
            end in
          match ty with
          | JStr name =>
              if String.eqb name "string" then (TStr, description)
              else if String.eqb name "integer" then (TInt, description)
              else if String.eqb name "number" then (TFloat, description)
              else if String.eqb name "boolean" then (TBool, description)
              else if String.eqb name "array" then (TListStr, description)
              else (TStr, description)
          | _ => (TStr, description)
          end
      | None => (TStr, JStr "")
      end
  | _ => (TStr, JStr "")
  end.

Definition json_instructions_header : string :=
  "You MUST format your response as a JSON object that follows this schema:"
  ++ PyStr.nl.

(** The messages of a structured call. *)
Definition structured_messages (prompt : string) (system_prompt : option string)
           (schema : PyDict) : list Message :=
  let fields := map (fun kv => (fst kv, schema_field (snd kv))) schema in
  let instructions := get_format_instructions fields in
  let system :=
    match system_prompt with
    | Some sp =>
        if PyStr.truthy sp
        then sp ++ (PyStr.nl ++ json_instructions_header ++ instructions)
        else json_instructions_header ++ instructions
    | None => json_instructions_header ++ instructions
    end in
  [SystemMessage system; HumanMessage prompt].

(** [ModelInterface.generate_structured]. *)
Definition ModelInterface_generate_structured (prompt : string)
           (system_prompt : option string) (json_schema : option PyDict)
           (temperature : option R) : M W json :=
  match json_schema with
  | None =>
      text <- ModelInterface_generate prompt system_prompt temperature ;;
      ret (JDict [("text", JStr text)])
  | Some schema =>
      let messages := structured_messages prompt system_prompt schema in
      try_except_Exception
        (call (chain_invoke messages temperature))
        (fun e =>
           print ("Error parsing JSON response: " ++ exc_str e) ;;;
           raw_response <- call (llm_invoke messages temperature) ;;
           ret (JDict [("text", JStr raw_response); ("error", JStr (exc_str e))]))
  end.

(* ------------------------------------------------------------------ *)
(** *** Histories of the memory *)

Definition apply_op (m : ResearchMemory) (op : MemOp) : M W ResearchMemory :=
  match op with
  | OpAddFact c s md => r <- add_fact m c s md ;; ret (snd r)
  | OpAddQuestion q => r <- add_question m q ;; ret (snd r)
  | OpMarkQuestionAnswered q => ret (mark_question_answered m q)
  | OpAddSearchQuery q => r <- add_search_query m q ;; ret (snd r)
  | OpAddVisitedSource s => ret (snd (add_visited_source m s))
  end.

(** The calls of [ops], in order, on a fresh memory. *)
Definition run_ops (ops : list MemOp) : M W ResearchMemory :=
  for_each ops apply_op ResearchMemory_init.

(** Every list of the memory is within the capacity. *)
Definition within_capacity (m : ResearchMemory) : Prop :=
  max_items m = MAX_MEMORY_ITEMS config
  /\ Z.of_nat (List.length (facts m)) <= max_items m
  /\ Z.of_nat (List.length (questions m)) <= max_items m
  /\ Z.of_nat (List.length (answered_questions m)) <= max_items m
  /\ Z.of_nat (List.length (search_queries m)) <= max_items m
  /\ Z.of_nat (List.length (visited_sources m)) <= max_items m.




(** The similarity of every candidate to [query], as [find_most_similar]
    computes them. *)
Definition similarities_to (query : string) (candidates : list string)
  : list npfloat :=
  map (fun c => cosine_similarity (encode_text query) (encode_text c))
      candidates.




(** The world after one more batch went to the embedding model. *)
Definition after_embedding (w : World W) (texts : list string) : World W :=
  mkWorld (ext w) (events w ++ [EmbedCall texts]).



(* ================================================================== *)
(** ** Properties *)

(** *** The planner *)

(** C1. The planner follows its four rules in order: no fact yet gives a
    search for the original query whatever the step; otherwise the first
    open question is searched when the step is a multiple of three or fewer
    than three facts are held, and reasoned about if not; with no open
    question, three facts or half of the steps used give the answer, and
    anything else a search for the original query. It never raises, and two
    states with the same counts, first question, step, limit and query get
    the same plan. *)
Theorem plan_next_action_policy :
  forall self : DeepResearcher,
    let fc := Z.of_nat (List.length (facts (memory self))) in
    let step := current_step self in
    (fc = 0 ->
       _plan_next_action self = Ok (SEARCH, [("query", research_query self)]))
    /\ (forall q rest,
          fc <> 0 -> questions (memory self) = q :: rest ->
          ((step mod 3 = 0 \/ fc < 3) ->
             _plan_next_action self = Ok (SEARCH, [("query", q)]))
          /\ (~ (step mod 3 = 0 \/ fc < 3) ->
                _plan_next_action self = Ok (REASON, [("focus_question", q)])))
    /\ (fc <> 0 -> questions (memory self) = [] ->
          ((fc >= 3 \/ step >= max_steps self / 2) ->
             _plan_next_action self = Ok (ANSWER, []))
          /\ (~ (fc >= 3 \/ step >= max_steps self / 2) ->
                _plan_next_action self
                = Ok (SEARCH, [("query", research_query self)])))
    /\ (forall other : DeepResearcher,
          List.length (facts (memory other)) = List.length (facts (memory self)) ->
          List.length (questions (memory other))
          = List.length (questions (memory self)) ->
          hd_error (questions (memory other)) = hd_error (questions (memory self)) ->
          current_step other = step ->
          max_steps other = max_steps self ->
          research_query other = research_query self ->
          _plan_next_action other = _plan_next_action self).
Proof.
  intros self fc step. unfold _plan_next_action, get_summary, get_unanswered_questions.
  cbn [s_facts s_questions]. fold fc. fold step.
  repeat split.
  - intros H. rewrite H. reflexivity.
  - intros [Hs | Hf].
    + destruct (Z.eqb_spec fc 0) as [E | _]; [contradiction |].
      rewrite H0. cbn [List.length].
      replace (Z.of_nat (S (List.length rest)) >? 0) with true
        by (symmetry; apply Z.gtb_lt; lia).
      rewrite Hs. reflexivity.
    + destruct (Z.eqb_spec fc 0) as [E | _]; [contradiction |].
      rewrite H0. cbn [List.length].
      replace (Z.of_nat (S (List.length rest)) >? 0) with true
        by (symmetry; apply Z.gtb_lt; lia).
      replace (fc <? 3) with true by (symmetry; apply Z.ltb_lt; lia).
      rewrite orb_true_r. reflexivity.
  - intros Hn.
    destruct (Z.eqb_spec fc 0) as [E | _]; [contradiction |].
    rewrite H0. cbn [List.length].
    replace (Z.of_nat (S (List.length rest)) >? 0) with true
      by (symmetry; apply Z.gtb_lt; lia).
    destruct (Z.eqb_spec (step mod 3) 0) as [E | _]; [tauto |].
    destruct (Z.ltb_spec fc 3) as [E | _]; [tauto |].
    reflexivity.
  - intros Hc.
    destruct (Z.eqb_spec fc 0) as [E | _]; [contradiction |].
    rewrite H0. cbn [List.length Z.of_nat]. cbn [Z.gtb Z.compare].
    destruct (Z.geb_spec fc 3) as [_ | E1]; [reflexivity |].
    destruct (Z.geb_spec step (max_steps self / 2)) as [_ | E2]; [reflexivity |].
    lia.
  - intros Hc.
    destruct (Z.eqb_spec fc 0) as [E | _]; [contradiction |].
    rewrite H0. cbn [List.length Z.of_nat]. cbn [Z.gtb Z.compare].
    destruct (Z.geb_spec fc 3) as [E1 | _]; [lia |].
    destruct (Z.geb_spec step (max_steps self / 2)) as [E2 | _]; [lia |].
    reflexivity.
  - intros other Hf Hq Hh Hs Hm Hr.
    rewrite Hf, Hq, Hs, Hm, Hr. fold fc.
    destruct (fc =? 0); [reflexivity |].
    destruct (Z.of_nat (List.length (questions (memory self))) >? 0);
      [| reflexivity].
    destruct (questions (memory other)), (questions (memory self));
      cbn in Hh; try discriminate; [reflexivity |].
    injection Hh as ->. reflexivity.
Qed.

(** The planner on the state of the specification's example: five facts, no
    open question, step 1 of 10. *)
Example plan_five_facts_no_question :
  forall (f1 f2 f3 f4 f5 : MemoryItem) (m : ResearchMemory) (query : string),
    facts m = [f1; f2; f3; f4; f5] -> questions m = [] ->
    _plan_next_action (mkResearcher 10 4096 m 1 0 query false "")
    = Ok (ANSWER, []).
Proof.
  intros f1 f2 f3 f4 f5 m query Hf Hq.
  unfold _plan_next_action, get_summary. cbn. rewrite Hf, Hq. reflexivity.
Qed.


(** *** The monad *)

Lemma bind_Ok_inv :
  forall (A B : Type) (c : M W A) (k : A -> M W B) (w w' : World W) (b : B),
    bind c k w = (Ok b, w') ->
    exists a w1, c w = (Ok a, w1) /\ k a w1 = (Ok b, w').
Proof.
  intros A B c k w w' b H. unfold bind in H.
  destruct (c w) as [[a | e] w1]; [| discriminate].
  exists a, w1. split; [reflexivity | exact H].
Qed.

Lemma bind_Ok :
  forall (A B : Type) (c : M W A) (k : A -> M W B) (w w1 : World W) (a : A),
    c w = (Ok a, w1) -> bind c k w = k a w1.
Proof. intros A B c k w w1 a H. unfold bind. rewrite H. reflexivity. Qed.

Lemma bind_Raise :
  forall (A B : Type) (c : M W A) (k : A -> M W B) (w w1 : World W) (e : PyExc),
    c w = (Raise e, w1) -> bind c k w = (Raise e, w1).
Proof. intros A B c k w w1 e H. unfold bind. rewrite H. reflexivity. Qed.

Lemma call_Ok :
  forall (A : Type) (f : W -> Result A * W) (w : World W) (r : Result A) (x : W),
    f (ext w) = (r, x) -> call f w = (r, mkWorld x (events w)).
Proof. intros A f w r x H. unfold call. rewrite H. reflexivity. Qed.

(** *** Python strings *)

Lemma find_from_spec :
  forall (c : ascii) (s : string) (off : Z),
    (PyStr.find_from c s off = -1 /\ 0 <= off ->
     forall n, String.get n s <> Some c)
    /\ (PyStr.find_from c s off = -1
        \/ (off <= PyStr.find_from c s off
            /\ String.get (Z.to_nat (PyStr.find_from c s off - off)) s = Some c
            /\ forall n, (n < Z.to_nat (PyStr.find_from c s off - off))%nat ->
                         String.get n s <> Some c)).
Proof.
  intros c. induction s as [| d rest IH]; intros off.
  - split; [intros _ n; destruct n; discriminate | left; reflexivity].
  - cbn [PyStr.find_from]. destruct (Ascii.eqb_spec d c) as [-> | N].
    + split; [intros [E H]; lia |]. right. split; [lia |].
      replace (off - off) with 0 by lia. cbn. split; [reflexivity |].
      intros n Hn. lia.
    + destruct (IH (off + 1)) as [IH1 IH2]. split.
      * intros [E H] n. destruct n as [| n]; cbn.
        -- intros X. injection X as X. exact (N X).
        -- apply IH1. split; [exact E | lia].
      * destruct IH2 as [E | (L & G & B)]; [left; exact E |]. right.
        split; [lia |].
        replace (Z.to_nat (PyStr.find_from c rest (off + 1) - off))
          with (S (Z.to_nat (PyStr.find_from c rest (off + 1) - (off + 1))))
          by lia.
        cbn. split; [exact G |]. intros n Hn. destruct n as [| n].
        -- intros X. injection X as X. exact (N X).
        -- apply B. lia.
Qed.

(** [find] gives the first position of the character, or -1 when there
    is none. *)
Lemma find_first :
  forall (c : ascii) (s : string),
    (PyStr.find c s = -1 /\ forall n, String.get n s <> Some c)
    \/ (0 <= PyStr.find c s
        /\ String.get (Z.to_nat (PyStr.find c s)) s = Some c
        /\ forall n, (n < Z.to_nat (PyStr.find c s))%nat ->
                     String.get n s <> Some c).
Proof.
  intros c s. unfold PyStr.find.
  destruct (find_from_spec c s 0) as [H1 [E | (L & G & B)]].
  - left. split; [exact E |]. apply H1. split; [exact E | lia].
  - right. rewrite Z.sub_0_r in G, B. repeat split; assumption.
Qed.

Lemma rfind_from_spec :
  forall (c : ascii) (s : string) (off last : Z),
    (PyStr.rfind_from c s off last = last
     /\ forall n, String.get n s <> Some c)
    \/ (off <= PyStr.rfind_from c s off last
        /\ String.get (Z.to_nat (PyStr.rfind_from c s off last - off)) s
           = Some c
        /\ forall n, (Z.to_nat (PyStr.rfind_from c s off last - off) < n)%nat ->
                     String.get n s <> Some c).
Proof.
  intros c. induction s as [| d rest IH]; intros off last.
  - left. split; [reflexivity | intros n; destruct n; discriminate].
  - cbn [PyStr.rfind_from].
    destruct (IH (off + 1) (if Ascii.eqb d c then off else last))
      as [[E H] | (L & G & B)].
    + rewrite E. destruct (Ascii.eqb_spec d c) as [-> | N].
      * right. split; [lia |]. replace (off - off) with 0 by lia. cbn.
        split; [reflexivity |]. intros n Hn. destruct n as [| n]; [lia |].
        cbn. apply H.
      * left. split; [reflexivity |]. intros n. destruct n as [| n]; cbn.
        -- intros X. injection X as X. exact (N X).
        -- apply H.
    + right. split; [lia |].
      replace (Z.to_nat (PyStr.rfind_from c rest (off + 1)
                           (if Ascii.eqb d c then off else last) - off))
        with (S (Z.to_nat (PyStr.rfind_from c rest (off + 1)
                             (if Ascii.eqb d c then off else last)
                           - (off + 1))))
        by lia.
      cbn. split; [exact G |]. intros n Hn. destruct n as [| n]; [lia |].
      apply B. lia.
Qed.

(** [rfind] gives the last position of the character, or -1 when there
    is none. *)
Lemma rfind_last :
  forall (c : ascii) (s : string),
    (PyStr.rfind c s = -1 /\ forall n, String.get n s <> Some c)
    \/ (0 <= PyStr.rfind c s
        /\ String.get (Z.to_nat (PyStr.rfind c s)) s = Some c
        /\ forall n, (Z.to_nat (PyStr.rfind c s) < n)%nat ->
                     String.get n s <> Some c).
Proof.
  intros c s. unfold PyStr.rfind.
  destruct (rfind_from_spec c s 0 (-1)) as [[E H] | (L & G & B)].
  - left. split; assumption.
  - right. rewrite Z.sub_0_r in G, B. repeat split; assumption.
Qed.

Lemma split_nonempty :
  forall (sep : ascii) (s : string), PyStr.split sep s <> [].
Proof.
  intros sep s. destruct s as [| c rest]; cbn; [discriminate |].
  destruct (Ascii.eqb c sep); [discriminate |].
  destruct (PyStr.split sep rest); discriminate.
Qed.

(** Joining the pieces of [split] with the separator gives the text back. *)
Lemma join_split :
  forall (sep : ascii) (s : string),
    PyStr.join (String sep EmptyString) (PyStr.split sep s) = s.
Proof.
  intros sep. induction s as [| c rest IH]; [reflexivity |].
  cbn [PyStr.split]. pose proof (split_nonempty sep rest) as NE.
  destruct (Ascii.eqb_spec c sep) as [-> | N].
  - destruct (PyStr.split sep rest) as [| p ps]; [contradiction |].
    change (PyStr.join (String sep "") ("" :: p :: ps))
      with ("" ++ String sep "" ++ PyStr.join (String sep "") (p :: ps)).
    rewrite IH. reflexivity.
  - destruct (PyStr.split sep rest) as [| p ps]; [contradiction |].
    destruct ps as [| p2 ps].
    + cbn in *. rewrite IH. reflexivity.
    + change (PyStr.join (String sep "") (String c p :: p2 :: ps))
        with (String c (p ++ String sep ""
                          ++ PyStr.join (String sep "") (p2 :: ps))).
      change (PyStr.join (String sep "") (p :: p2 :: ps))
        with (p ++ String sep "" ++ PyStr.join (String sep "") (p2 :: ps)) in IH.
      rewrite IH. reflexivity.
Qed.

(** No piece of [split] contains the separator. *)
Lemma split_pieces :
  forall (sep : ascii) (s piece : string),
    In piece (PyStr.split sep s) ->
    forall n, String.get n piece <> Some sep.
Proof.
  intros sep. induction s as [| c rest IH]; intros piece I n.
  - destruct I as [<- | []]. destruct n; discriminate.
  - cbn [PyStr.split] in I. destruct (Ascii.eqb_spec c sep) as [-> | N].
    + destruct I as [<- | I]; [destruct n; discriminate | exact (IH piece I n)].
    + pose proof (split_nonempty sep rest) as NE.
      destruct (PyStr.split sep rest) as [| p ps]; [contradiction |].
      destruct I as [<- | I].
      * destruct n as [| n]; cbn.
        -- intros X. injection X as X. exact (N X).
        -- apply (IH p). left. reflexivity.
      * apply (IH piece). right. exact I.
Qed.

(** What [lstrip] removes is white space, and what it leaves does not start
    with white space. *)
Lemma lstrip_spec :
  forall s : string,
    exists ws : string,
      s = ws ++ PyStr.lstrip s
      /\ (forall n c, String.get n ws = Some c -> PyStr.isspace c = true)
      /\ (forall c, String.get 0 (PyStr.lstrip s) = Some c ->
                    PyStr.isspace c = false).
Proof.
  induction s as [| d rest IH].
  - exists "". repeat split; intros; discriminate.
  - cbn [PyStr.lstrip]. destruct (PyStr.isspace d) eqn:Sp.
    + destruct IH as (ws & E & A & B). exists (String d ws). split; [| split].
      * cbn. rewrite <- E. reflexivity.
      * intros n c G. destruct n as [| n]; cbn in G.
        -- injection G as <-. exact Sp.
        -- exact (A n c G).
      * exact B.
    + exists "". split; [reflexivity | split].
      * intros n c G. destruct n; discriminate.
      * intros c G. cbn in G. injection G as <-. exact Sp.
Qed.

(** [rstrip] leaves a prefix, removes white space only, and what it leaves
    does not end with white space. *)
Lemma rstrip_spec :
  forall s : string,
    exists ws : string,
      s = PyStr.rstrip s ++ ws
      /\ (forall n c, String.get n ws = Some c -> PyStr.isspace c = true)
      /\ (forall c,
            String.get (String.length (PyStr.rstrip s) - 1) (PyStr.rstrip s)
            = Some c ->
            PyStr.isspace c = false).
Proof.
  induction s as [| d rest IH].
  - exists "". repeat split; intros; discriminate.
  - cbn [PyStr.rstrip]. destruct IH as (ws & E & A & B).
    destruct (PyStr.isspace d && PyStr.is_empty (PyStr.rstrip rest)) eqn:C.
    + apply andb_prop in C. destruct C as [Sp Em].
      destruct (PyStr.rstrip rest) as [| x xs] eqn:ER; [| discriminate].
      exists (String d ws). split; [| split].
      * cbn. cbn in E. rewrite <- E. reflexivity.
      * intros n c G. destruct n as [| n]; cbn in G.
        -- injection G as <-. exact Sp.
        -- exact (A n c G).
      * intros c G. discriminate.
    + exists ws. split; [| split].
      * cbn. rewrite <- E. reflexivity.
      * exact A.
      * intros c G. destruct (PyStr.rstrip rest) as [| x xs] eqn:ER.
        -- cbn in G. injection G as <-. cbn in C. rewrite andb_true_r in C.
           exact C.
        -- apply B. cbn [String.length] in *.
           replace (S (S (String.length xs)) - 1)%nat
             with (S (String.length xs)) in G by lia.
           replace (S (String.length xs) - 1)%nat with (String.length xs) by lia.
           cbn in G. destruct (String.length xs) eqn:L; exact G.
Qed.

(** *** Query expansion *)

Lemma expand_query_extract :
  forall (query : string) (context : option string) (w : World W)
         (response : PyDict) (x' : W),
    model_generate_structured (expansion_user_prompt query context)
      expansion_system_prompt expansion_schema (Some (5 / 10)%R) (ext w)
    = (Ok response, x') ->
    expand_query query context w
    = match extract_queries query response with
      | Ok qs => (Ok qs, mkWorld x' (events w))
      | Raise e => (Raise e, mkWorld x' (events w))
      end.
Proof.
  intros query context w response x' H. unfold expand_query.
  erewrite bind_Ok by (apply call_Ok; exact H).
  destruct (extract_queries query response); reflexivity.
Qed.





(** *** Cosine similarity *)







Lemma cosine_similarity_Num :
  forall v1 v2 : vec,
    np_linalg_norm v1 <> 0%R -> np_linalg_norm v2 <> 0%R ->
    cosine_similarity v1 v2
    = Num (np_dot v1 v2 / (np_linalg_norm v1 * np_linalg_norm v2))%R.
Proof.
  intros v1 v2 H1 H2. unfold cosine_similarity, np_divide.
  destruct (Req_dec_T (np_linalg_norm v1 * np_linalg_norm v2) 0) as [E | _];
    [| reflexivity].
  destruct (Rmult_integral _ _ E); contradiction.
Qed.





(** *** Nearest neighbour and duplicates *)

Lemma argmax_from_max :
  forall (rest prefix : list npfloat) (best_i : nat) (best : npfloat),
    nth best_i (prefix ++ rest) NaN = best ->
    (best_i < List.length prefix)%nat ->
    nth (argmax_from best_i best (List.length prefix) rest) (prefix ++ rest) NaN
    = fold_left np_max2 rest best.
Proof.
  induction rest as [| x rest IH]; intros prefix best_i best Hb Hlt.
  - exact Hb.
  - cbn [argmax_from fold_left].
    replace (prefix ++ x :: rest)%list with ((prefix ++ [x]) ++ rest)%list in *
      by (rewrite <- app_assoc; reflexivity).
    replace (S (List.length prefix)) with (List.length (prefix ++ [x]))
      by (rewrite length_app; cbn; lia).
    destruct (negb (is_nan best) && (is_nan x || np_lt best x)) eqn:C.
    + replace (np_max2 best x) with x.
      * apply IH.
        -- rewrite app_nth1 by (rewrite length_app; cbn; lia).
           rewrite app_nth2 by lia.
           replace (List.length prefix - List.length prefix)%nat with O by lia.
           reflexivity.
        -- rewrite length_app. cbn. lia.
      * unfold np_max2. apply andb_prop in C. destruct C as [C1 C2].
        apply negb_true_iff in C1. rewrite C1.
        destruct (is_nan x); [reflexivity |]. cbn in C2. rewrite C2. reflexivity.
    + replace (np_max2 best x) with best.
      * apply IH; [| rewrite length_app; cbn; lia]. exact Hb.
      * unfold np_max2. destruct (is_nan best); [reflexivity |].
        cbn in C. destruct (is_nan x); [discriminate |]. cbn in C.
        rewrite C. reflexivity.
Qed.

Lemma argmax_is_max :
  forall xs : list npfloat, xs <> [] -> nth (np_argmax xs) xs NaN = np_max xs.
Proof.
  intros [| x rest] H; [contradiction |].
  unfold np_argmax, np_max.
  exact (argmax_from_max rest [x] O x eq_refl (Nat.lt_0_succ 0)).
Qed.

Lemma compute_embeddings_run :
  forall (texts : list string) (w : World W),
    compute_embeddings texts w
    = (Ok (map encode_text texts), after_embedding w texts).
Proof. reflexivity. Qed.

Lemma is_duplicate_empty :
  forall (query : string) (threshold : option R) (w : World W),
    is_duplicate query [] threshold w = (Ok false, w).
Proof. reflexivity. Qed.

Lemma is_duplicate_run :
  forall (query : string) (candidates : list string) (threshold : option R)
         (w : World W),
    candidates <> [] ->
    is_duplicate query candidates threshold w
    = (Ok (np_ge (np_max (similarities_to query candidates))
                 (match threshold with
                  | Some t => t
                  | None => SIMILARITY_THRESHOLD config
                  end)),
       after_embedding w (query :: candidates)).
Proof.
  intros query [| c cs] threshold w H; [contradiction |].
  unfold is_duplicate, find_most_similar, bind.
  rewrite compute_embeddings_run. cbn [snd hd tl map]. unfold ret.
  rewrite map_map. cbn [snd].
  change (cosine_similarity (encode_text query) (encode_text c)
          :: map (fun x => cosine_similarity (encode_text query) (encode_text x)) cs)
    with (similarities_to query (c :: cs)).
  rewrite argmax_is_max by (unfold similarities_to; cbn [map]; discriminate).
  reflexivity.
Qed.









(** *** The memory: capacity *)

Lemma is_duplicate_Ok :
  forall (query : string) (candidates : list string) (threshold : option R)
         (w : World W),
    exists (b : bool) (w' : World W),
      is_duplicate query candidates threshold w = (Ok b, w').
Proof.
  intros query candidates threshold w. destruct candidates as [| c cs].
  - exists false, w. reflexivity.
  - eexists. eexists. apply is_duplicate_run. discriminate.
Qed.

Lemma add_fact_run :
  forall (m : ResearchMemory) (c s : string) (md : option PyDict) (w : World W),
    exists (b : bool) (w' : World W),
      is_duplicate c (map content (facts m)) None w = (Ok b, w')
      /\ add_fact m c s md w
         = (Ok (if b then (false, m)
                else (true,
                      set_facts m
                        (trim (max_items m)
                              (facts m
                               ++ [mkItem c s (match md with
                                               | Some d => d
                                               | None => []
                                               end)])))),
            w').
Proof.
  intros m c s md w.
  destruct (is_duplicate_Ok c (map content (facts m)) None w) as (b & w' & E).
  exists b, w'. split; [exact E |]. unfold add_fact, bind. rewrite E.
  destruct b; reflexivity.
Qed.

Lemma add_question_run :
  forall (m : ResearchMemory) (q : string) (w : World W),
    exists (b : bool) (w' : World W),
      is_duplicate q (questions m ++ answered_questions m) None w = (Ok b, w')
      /\ add_question m q w
         = (Ok (if b then (false, m)
                else (true,
                      set_questions m
                        (trim (max_items m) (questions m ++ [q])))),
            w').
Proof.
  intros m q w.
  destruct (is_duplicate_Ok q (questions m ++ answered_questions m) None w)
    as (b & w' & E).
  exists b, w'. split; [exact E |]. unfold add_question, bind. rewrite E.
  destruct b; reflexivity.
Qed.

Lemma add_search_query_run :
  forall (m : ResearchMemory) (q : string) (w : World W),
    exists (b : bool) (w' : World W),
      add_search_query m q w
      = (Ok (if b then (false, m)
             else (true,
                   set_search_queries m
                     (trim (max_items m) (search_queries m ++ [q])))),
         w').
Proof.
  intros m q w.
  destruct (is_duplicate_Ok q (search_queries m) None w) as (b & w' & E).
  exists b, w'. unfold add_search_query, bind. rewrite E.
  destruct b; reflexivity.
Qed.

Lemma trim_length :
  forall (A : Type) (cap : Z) (l : list A) (x : A),
    0 <= cap -> Z.of_nat (List.length l) <= cap ->
    Z.of_nat (List.length (trim cap (l ++ [x]))) <= cap.
Proof.
  intros A cap l x Hc Hl. unfold trim.
  destruct (Z.gtb_spec (Z.of_nat (List.length (l ++ [x]))) cap) as [G | G].
  - destruct l as [| y l]; cbn [app tl List.length] in *; [lia |].
    rewrite length_app. cbn [List.length]. lia.
  - exact G.
Qed.

Lemma trim_full :
  forall (A : Type) (cap : Z) (oldest : A) (rest : list A) (x : A),
    Z.of_nat (List.length (oldest :: rest)) = cap ->
    trim cap ((oldest :: rest) ++ [x]) = (rest ++ [x])%list.
Proof.
  intros A cap oldest rest x H. unfold trim.
  replace (Z.of_nat (List.length ((oldest :: rest) ++ [x])) >? cap) with true;
    [reflexivity |].
  symmetry. apply Z.gtb_lt. rewrite length_app. cbn [List.length] in *. lia.
Qed.

Lemma trim_room :
  forall (A : Type) (cap : Z) (l : list A) (x : A),
    Z.of_nat (List.length l) < cap -> trim cap (l ++ [x]) = (l ++ [x])%list.
Proof.
  intros A cap l x H. unfold trim.
  destruct (Z.gtb_spec (Z.of_nat (List.length (l ++ [x]))) cap) as [G | _];
    [| reflexivity].
  rewrite length_app in G. cbn [List.length] in G. lia.
Qed.

Lemma apply_op_Ok :
  forall (m : ResearchMemory) (op : MemOp) (w : World W),
    exists (m' : ResearchMemory) (w' : World W),
      apply_op m op w = (Ok m', w').
Proof.
  intros m op w. destruct op as [c s md | q | q | q | s]; unfold apply_op.
  - destruct (add_fact_run m c s md w) as (b & w' & _ & E).
    unfold bind. rewrite E. eexists. eexists. reflexivity.
  - destruct (add_question_run m q w) as (b & w' & _ & E).
    unfold bind. rewrite E. eexists. eexists. reflexivity.
  - eexists. eexists. reflexivity.
  - destruct (add_search_query_run m q w) as (b & w' & E).
    unfold bind. rewrite E. eexists. eexists. reflexivity.
  - eexists. eexists. reflexivity.
Qed.

Lemma apply_op_within_capacity :
  forall (m m' : ResearchMemory) (op : MemOp) (w w' : World W),
    0 <= MAX_MEMORY_ITEMS config ->
    within_capacity m -> apply_op m op w = (Ok m', w') -> within_capacity m'.
Proof.
  intros m m' op w w' Hc (Hm & Hf & Hq & Ha & Hs & Hv) E.
  rewrite <- Hm in Hc.
  destruct op as [c s md | q | q | q | s]; unfold apply_op in E.
  - destruct (add_fact_run m c s md w) as (b & w1 & _ & E1).
    unfold bind in E. rewrite E1 in E. destruct b; injection E as <- _.
    + repeat split; assumption.
    + cbn. repeat split; try assumption. apply trim_length; assumption.
  - destruct (add_question_run m q w) as (b & w1 & _ & E1).
    unfold bind in E. rewrite E1 in E. destruct b; injection E as <- _.
    + repeat split; assumption.
    + cbn. repeat split; try assumption. apply trim_length; assumption.
  - injection E as <- _. unfold mark_question_answered.
    destruct (str_in q (questions m)) eqn:I; [| repeat split; assumption].
    unfold within_capacity, set_answered_questions, set_questions. cbn.
    repeat split; try assumption.
    + assert (L : forall l, (List.length (list_remove q l) <= List.length l)%nat).
      { induction l as [| y l IH]; cbn; [lia |].
        destruct (String.eqb y q); cbn; lia. }
      specialize (L (questions m)). lia.
    + apply trim_length; assumption.
  - destruct (add_search_query_run m q w) as (b & w1 & E1).
    unfold bind in E. rewrite E1 in E. destruct b; injection E as <- _.
    + repeat split; assumption.
    + cbn. repeat split; try assumption. apply trim_length; assumption.
  - injection E as <- _. unfold add_visited_source.
    destruct (str_in s (visited_sources m)); [repeat split; assumption |].
    cbn. repeat split; try assumption. apply trim_length; assumption.
Qed.

Lemma for_each_Ok :
  forall (A S : Type) (body : S -> A -> M W S),
    (forall acc x w, exists acc' w', body acc x w = (Ok acc', w')) ->
    forall (xs : list A) (acc : S) (w : World W),
      exists acc' w', for_each xs body acc w = (Ok acc', w').
Proof.
  intros A S body Hb. induction xs as [| x xs IH]; intros acc w.
  - exists acc, w. reflexivity.
  - cbn [for_each]. destruct (Hb acc x w) as (acc1 & w1 & E).
    unfold bind. rewrite E. apply IH.
Qed.

Lemma for_each_invariant :
  forall (A S : Type) (body : S -> A -> M W S) (P : S -> Prop),
    (forall acc x w acc' w', P acc -> body acc x w = (Ok acc', w') -> P acc') ->
    forall (xs : list A) (acc : S) (w : World W) (acc' : S) (w' : World W),
      P acc -> for_each xs body acc w = (Ok acc', w') -> P acc'.
Proof.
  intros A S body P Hb. induction xs as [| x xs IH]; intros acc w acc' w' Hp E.
  - injection E as <- _. exact Hp.
  - cbn [for_each] in E. apply bind_Ok_inv in E.
    destruct E as (acc1 & w1 & E1 & E2).
    exact (IH acc1 w1 acc' w' (Hb acc x w acc1 w1 Hp E1) E2).
Qed.

Lemma run_ops_Ok :
  forall (ops : list MemOp) (w : World W),
    exists (m : ResearchMemory) (w' : World W), run_ops ops w = (Ok m, w').
Proof.
  intros ops w. unfold run_ops. apply for_each_Ok. apply apply_op_Ok.
Qed.

Lemma run_ops_within_capacity :
  forall (ops : list MemOp) (w w' : World W) (m : ResearchMemory),
    0 <= MAX_MEMORY_ITEMS config ->
    run_ops ops w = (Ok m, w') -> within_capacity m.
Proof.
  intros ops w w' m Hc E. unfold run_ops in E.
  refine (for_each_invariant _ _ apply_op within_capacity _ ops _ w m w' _ E).
  - intros acc x w0 acc' w0' Hp E0.
    exact (apply_op_within_capacity acc acc' x w0 w0' Hc Hp E0).
  - unfold within_capacity, ResearchMemory_init. cbn. repeat split; lia.
Qed.

(** C2. After any sequence of memory operations the facts and the open
    questions hold at most [max_items] entries. An insertion appends and then
    drops the first entry if the list became longer than the capacity: on a
    full list the oldest entry goes and the newer ones stay in order, on a
    list with room nothing goes. *)
Theorem memory_capacity_bound :
  0 <= MAX_MEMORY_ITEMS config ->
  (forall (ops : list MemOp) (w : World W),
      exists (m : ResearchMemory) (w' : World W), run_ops ops w = (Ok m, w'))
  /\ (forall (ops : list MemOp) (w w' : World W) (m : ResearchMemory),
        run_ops ops w = (Ok m, w') ->
        max_items m = MAX_MEMORY_ITEMS config
        /\ Z.of_nat (List.length (facts m)) <= max_items m
        /\ Z.of_nat (List.length (questions m)) <= max_items m)
  /\ (forall (m m' : ResearchMemory) (c s : string) (md : option PyDict)
             (w w' : World W),
        add_fact m c s md w = (Ok (true, m'), w') ->
        let item := mkItem c s (match md with Some d => d | None => [] end) in
        facts m' = trim (max_items m) (facts m ++ [item])
        /\ (forall oldest rest,
              facts m = oldest :: rest ->
              Z.of_nat (List.length (facts m)) = max_items m ->
              facts m' = (rest ++ [item])%list)
        /\ (Z.of_nat (List.length (facts m)) < max_items m ->
            facts m' = (facts m ++ [item])%list))
  /\ (forall (m m' : ResearchMemory) (q : string) (w w' : World W),
        add_question m q w = (Ok (true, m'), w') ->
        questions m' = trim (max_items m) (questions m ++ [q])
        /\ (forall oldest rest,
              questions m = oldest :: rest ->
              Z.of_nat (List.length (questions m)) = max_items m ->
              questions m' = (rest ++ [q])%list)
        /\ (Z.of_nat (List.length (questions m)) < max_items m ->
            questions m' = (questions m ++ [q])%list)).
Proof.
  intros Hc. split; [| split; [| split]].
  - exact run_ops_Ok.
  - intros ops w w' m E.
    destruct (run_ops_within_capacity ops w w' m Hc E) as (H1 & H2 & H3 & _).
    repeat split; assumption.
  - intros m m' c s md w w' E item.
    destruct (add_fact_run m c s md w) as (b & w1 & _ & E1).
    rewrite E1 in E. destruct b; [discriminate |]. injection E as <- _.
    cbn [facts set_facts]. fold item. split; [reflexivity | split].
    + intros oldest rest Hf Hl. rewrite Hf in *. apply trim_full. exact Hl.
    + intros Hl. apply trim_room. exact Hl.
  - intros m m' q w w' E.
    destruct (add_question_run m q w) as (b & w1 & _ & E1).
    rewrite E1 in E. destruct b; [discriminate |]. injection E as <- _.
    cbn [questions set_questions]. split; [reflexivity | split].
    + intros oldest rest Hf Hl. rewrite Hf in *. apply trim_full. exact Hl.
    + intros Hl. apply trim_room. exact Hl.
Qed.


(** *** The memory: open and answered questions *)

Lemma str_in_In :
  forall (x : string) (l : list string), str_in x l = true <-> In x l.
Proof.
  intros x. induction l as [| y l IH]; cbn [str_in In].
  - split; [discriminate | contradiction].
  - rewrite orb_true_iff, IH, String.eqb_eq. reflexivity.
Qed.

Lemma str_in_not_In :
  forall (x : string) (l : list string), str_in x l = false <-> ~ In x l.
Proof.
  intros x l. rewrite <- str_in_In. destruct (str_in x l); split; intros H;
    try discriminate; try reflexivity.
  exfalso. apply H. reflexivity.
Qed.














(** *** Ranking the facts *)















Lemma get_relevant_facts_run :
  forall (m : ResearchMemory) (query : string) (k : Z) (w : World W),
    facts m <> [] ->
    get_relevant_facts m query k w
    = (Ok (map fst
               (py_take k
                  (sort_by_score_desc
                     (combine (facts m)
                              (similarities_to query (map content (facts m))))))),
       after_embedding w (query :: map content (facts m))).
Proof.
  intros m query k w H. unfold get_relevant_facts.
  destruct (facts m) as [| f F] eqn:E; [contradiction |].
  unfold bind. rewrite compute_embeddings_run. cbn [map hd tl]. unfold ret.
  rewrite map_map. reflexivity.
Qed.

Lemma py_take_map :
  forall (A B : Type) (g : A -> B) (k : Z) (l : list A),
    py_take k (map g l) = map g (py_take k l).
Proof.
  intros A B g k l. unfold py_take. rewrite length_map.
  destruct (0 <=? k); apply firstn_map.
Qed.



(** *** The research loop *)

Lemma execute_search_memory :
  forall (self self' : DeepResearcher) (params : Params) (w w' : World W),
    _execute_search self params w = (Ok self', w') ->
    exists m', self' = set_memory self m'.
Proof.
  intros self self' params w w' E. unfold _execute_search in E.
  apply bind_Ok_inv in E. destruct E as (qs & w1 & _ & E).
  apply bind_Ok_inv in E. destruct E as (r & w2 & _ & E).
  apply bind_Ok_inv in E. destruct E as (arts & w3 & _ & E).
  apply bind_Ok_inv in E. destruct E as (m2 & w4 & _ & E).
  injection E as <- _. exists m2. reflexivity.
Qed.

Lemma execute_reason_memory :
  forall (self self' : DeepResearcher) (params : Params) (w w' : World W),
    _execute_reason self params w = (Ok self', w') ->
    exists m', self' = set_memory self m'.
Proof.
  intros self self' params w w' E. unfold _execute_reason in E.
  apply bind_Ok_inv in E. destruct E as (rf & w1 & _ & E).
  apply bind_Ok_inv in E. destruct E as (resp & w2 & _ & E).
  apply bind_Ok_inv in E. destruct E as (m1 & w3 & _ & E).
  apply bind_Ok_inv in E. destruct E as (m2 & w4 & _ & E).
  injection E as <- _. eexists. reflexivity.
Qed.

Lemma generate_final_answer_run :
  forall (self self' : DeepResearcher) (w w' : World W),
    _generate_final_answer self w = (Ok self', w') ->
    exists a x',
      model_generate
        (answer_user_prompt (research_query self) (bulleted (facts (memory self))))
        answer_system_prompt (ext w)
      = (Ok a, x')
      /\ self' = set_answer self a /\ w' = mkWorld x' (events w).
Proof.
  intros self self' w w' E. unfold _generate_final_answer, bind, call in E.
  destruct (model_generate _ _ (ext w)) as [[a | e] x'] eqn:G; [| discriminate].
  injection E as <- <-. exists a, x'. repeat split.
Qed.

Lemma research_loop_complete :
  forall (fuel : nat) (self : DeepResearcher) (w : World W),
    research_complete self = true ->
    research_loop (S fuel) self w = (Ok (Some (ExitAnswered, self)), w).
Proof.
  intros fuel self w H. cbn [research_loop]. rewrite H. reflexivity.
Qed.

(** One iteration of the loop that runs an action: the state it hands to
    the next iteration. *)
Lemma loop_action_step :
  forall (self1 self2 : DeepResearcher) (action : ActionType) (params : Params)
         (w w' : World W),
    match action with
    | SEARCH => _execute_search self1 params
    | READ => _execute_read self1 params
    | REASON => _execute_reason self1 params
    | ANSWER => bind (_execute_answer self1 params)
                     (fun s => ret (set_research_complete s true))
    end w = (Ok self2, w') ->
    max_steps self2 = max_steps self1
    /\ token_budget self2 = token_budget self1
    /\ total_tokens_used self2 = total_tokens_used self1
    /\ research_query self2 = research_query self1
    /\ current_step self2 = current_step self1
    /\ (research_complete self2 = research_complete self1
        \/ (research_complete self2 = true
            /\ exists x x',
                model_generate
                  (answer_user_prompt (research_query self2)
                                      (bulleted (facts (memory self2))))
                  answer_system_prompt x
                = (Ok (answer self2), x'))).
Proof.
  intros self1 self2 action params w w' E. destruct action.
  - destruct (execute_search_memory _ _ _ _ _ E) as (m' & ->).
    repeat split. left. reflexivity.
  - injection E as <- _. repeat split. left. reflexivity.
  - destruct (execute_reason_memory _ _ _ _ _ E) as (m' & ->).
    repeat split. left. reflexivity.
  - apply bind_Ok_inv in E. destruct E as (s & w1 & E1 & E2).
    injection E2 as <- _. unfold _execute_answer in E1.
    destruct (generate_final_answer_run _ _ _ _ E1) as (a & x' & G & -> & _).
    repeat split. right. split; [reflexivity |].
    exists (ext w), x'. exact G.
Qed.

Lemma research_loop_exit :
  forall (fuel : nat) (self self' : DeepResearcher) (reason : LoopExit)
         (w w' : World W),
    research_loop fuel self w = (Ok (Some (reason, self')), w') ->
    max_steps self' = max_steps self
    /\ token_budget self' = token_budget self
    /\ total_tokens_used self' = total_tokens_used self
    /\ research_query self' = research_query self
    /\ current_step self <= current_step self'
    /\ current_step self' <= Z.max (current_step self) (max_steps self)
    /\ match reason with
       | ExitAnswered => research_complete self' = true
       | ExitStepLimit =>
           research_complete self' = false
           /\ max_steps self <= current_step self'
       | ExitBudget =>
           research_complete self' = false
           /\ token_budget self <= total_tokens_used self
       end
    /\ (research_complete self = false -> research_complete self' = true ->
        exists x x',
          model_generate
            (answer_user_prompt (research_query self')
                                (bulleted (facts (memory self'))))
            answer_system_prompt x
          = (Ok (answer self'), x')).
Proof.
  induction fuel as [| fuel IH]; intros self self' reason w w' E.
  - discriminate.
  - cbn [research_loop] in E.
    destruct (negb (research_complete self)
              && (current_step self <? max_steps self)) eqn:C.
    + apply andb_prop in C. destruct C as [C1 C2].
      apply negb_true_iff in C1. apply Z.ltb_lt in C2.
      destruct (Z.geb_spec (total_tokens_used
                              (set_current_step self (current_step self + 1)))
                           (token_budget
                              (set_current_step self (current_step self + 1))))
        as [B | B].
      * injection E as <- <- _. cbn. repeat split; try lia; try assumption.
        intros _ X. congruence.
      * destruct (_plan_next_action _) as [[action params] | e]; [| discriminate].
        apply bind_Ok_inv in E. destruct E as (self2 & w2 & E1 & E2).
        destruct (loop_action_step _ _ _ _ _ _ E1)
          as (H1 & H2 & H3 & H4 & H5 & H6).
        cbn in H1, H2, H3, H4, H5.
        destruct H6 as [H6 | [H6 G]].
        -- cbn in H6. destruct (IH _ _ _ _ _ E2)
             as (I1 & I2 & I3 & I4 & I5 & I6 & I7 & I8).
           rewrite H1 in *. rewrite H2 in *. rewrite H3 in *. rewrite H4 in *.
           rewrite H5 in *.
           repeat split; try assumption; try lia.
           intros _ X. apply I8; [congruence | exact X].
        -- destruct fuel as [| fuel']; [discriminate |].
           rewrite (research_loop_complete fuel' self2 w2 H6) in E2.
           injection E2 as <- <- _.
           repeat split; try assumption; try lia.
           intros _ _. exact G.
    + injection E as <- <- _.
      apply andb_false_iff in C. repeat split; try lia.
      * destruct (research_complete self) eqn:RC; [reflexivity |].
        split; [reflexivity |]. destruct C as [C | C]; [discriminate |].
        apply Z.ltb_ge in C. exact C.
      * intros X Y. congruence.
Qed.

Lemma research_loop_enough_fuel :
  forall (fuel : nat) (self : DeepResearcher) (w : World W),
    (Z.to_nat (max_steps self - current_step self) < fuel)%nat ->
    fst (research_loop fuel self w) <> Ok None.
Proof.
  induction fuel as [| fuel IH]; intros self w H; [lia |].
  cbn [research_loop].
  destruct (negb (research_complete self)
            && (current_step self <? max_steps self)) eqn:C;
    [| cbn; discriminate].
  apply andb_prop in C. destruct C as [_ C2]. apply Z.ltb_lt in C2.
  destruct (_ >=? _); [cbn; discriminate |].
  destruct (_plan_next_action _) as [[action params] | e]; [| cbn; discriminate].
  unfold bind at 1.
  match goal with
  | |- context [match ?c w with _ => _ end] =>
      destruct (c w) as [[self2 | e] w2] eqn:E1; [| cbn; discriminate]
  end.
  destruct (loop_action_step _ _ _ _ _ _ E1) as (H1 & _ & _ & _ & H5 & _).
  cbn in H1, H5. apply IH. rewrite H1, H5. lia.
Qed.

Lemma research_loop_more_fuel :
  forall (fuel fuel' : nat) (self : DeepResearcher) (w : World W),
    fst (research_loop fuel self w) <> Ok None -> (fuel <= fuel')%nat ->
    research_loop fuel' self w = research_loop fuel self w.
Proof.
  induction fuel as [| fuel IH]; intros fuel' self w H L.
  - exfalso. apply H. reflexivity.
  - destruct fuel' as [| fuel']; [lia |]. cbn [research_loop] in *.
    destruct (negb (research_complete self)
              && (current_step self <? max_steps self)); [| reflexivity].
    destruct (_ >=? _); [reflexivity |].
    destruct (_plan_next_action _) as [[action params] | e]; [| reflexivity].
    unfold bind at 1. unfold bind at 1 in H. unfold bind at 2.
    match goal with
    | |- context [match ?c w with _ => _ end] =>
        destruct (c w) as [[self2 | e] w2]; [| reflexivity]
    end.
    apply IH; [exact H | lia].
Qed.

Lemma research_with_unfold :
  forall (fuel : nat) (self : DeepResearcher) (query : string) (w : World W),
    research_with fuel self query w
    = bind (research_loop fuel (research_start self query))
           (fun out =>
              match out with
              | None => ret None
              | Some (_, s) => research_finish s
              end) w.
Proof. reflexivity. Qed.


Lemma research_loop_start_fuel :
  forall (self : DeepResearcher) (query : string) (w : World W),
    fst (research_loop (enough_fuel self) (research_start self query) w)
    <> Ok None.
Proof.
  intros self query w. apply research_loop_enough_fuel.
  unfold enough_fuel. cbn. lia.
Qed.

Lemma research_not_out_of_fuel :
  forall (self : DeepResearcher) (query : string) (w : World W),
    fst (research self query w) <> Ok None.
Proof.
  intros self query w.
  unfold research. rewrite research_with_unfold. unfold bind at 1.
  destruct (research_loop _ _ w) as [[[[reason s1] |] | e] w1] eqn:EL.
  - unfold research_finish, bind.
    destruct ((if negb (research_complete s1)
               then _generate_final_answer s1 else ret s1) w1)
      as [[s2 | e] w2]; cbn; discriminate.
  - exfalso. apply (research_loop_start_fuel self query w). rewrite EL.
    reflexivity.
  - cbn. discriminate.
Qed.

Lemma execute_search_Ok :
  forall (self : DeepResearcher) (params : Params) (w : World W),
    (forall q x, exists text x', yahoo_invoke q x = (Ok text, x')) ->
    (exists qs w1,
        expand_query (params_get params "query" (research_query self)) None w
        = (Ok qs, w1)) ->
    exists s2 w2, _execute_search self params w = (Ok s2, w2).
Proof.
  intros self params w Hy (qs & w1 & EQ). unfold _execute_search.
  rewrite (bind_Ok _ _ _ _ w w1 qs EQ).
  destruct (add_search_query_run
              (memory self) (params_get params "query" (research_query self)) w1)
    as (b & w2 & EA).
  rewrite (bind_Ok _ _ _ _ w1 w2 _ EA).
  match goal with
  | |- context [bind (for_each qs ?body ?a0)] =>
      assert (EF : exists arts w3, for_each qs body a0 w2 = (Ok arts, w3));
        [apply for_each_Ok | destruct EF as (arts & w3 & EF)]
  end.
  { intros acc q w0. unfold finance_news_search, bind, call.
    destruct (Hy q (ext w0)) as (text & x' & E). rewrite E.
    destruct (_ || _); eexists; eexists; reflexivity. }
  rewrite (bind_Ok _ _ _ _ w2 w3 arts EF).
  match goal with
  | |- context [bind (for_each arts ?body ?a0)] =>
      assert (EM : exists m2 w4, for_each arts body a0 w3 = (Ok m2, w4));
        [apply for_each_Ok | destruct EM as (m2 & w4 & EM)]
  end.
  { intros acc a w0.
    destruct (add_fact_run acc (a_title a ++ ": " ++ a_content a)
                           (a_source a ++ " - " ++ a_title a) None w0)
      as (b0 & w0' & _ & E).
    unfold bind. rewrite E. eexists. eexists. reflexivity. }
  rewrite (bind_Ok _ _ _ _ w3 w4 m2 EM).
  eexists. eexists. reflexivity.
Qed.

Lemma research_start_fields :
  forall (self : DeepResearcher) (query : string),
    max_steps (research_start self query) = max_steps self
    /\ token_budget (research_start self query) = token_budget self
    /\ current_step (research_start self query) = 0
    /\ total_tokens_used (research_start self query) = 0
    /\ research_query (research_start self query) = query
    /\ research_complete (research_start self query) = false
    /\ facts (memory (research_start self query)) = [].
Proof. intros self query. repeat split. Qed.

Lemma research_finish_run :
  forall (s s' : DeepResearcher) (ans : string) (w w' : World W),
    research_finish s w = (Ok (Some (ans, s')), w') ->
    answer s' = ans
    /\ current_step s' = current_step s
    /\ total_tokens_used s' = total_tokens_used s
    /\ memory s' = memory s
    /\ ((research_complete s = true /\ s' = s)
        \/ (research_complete s = false
            /\ exists x',
                model_generate
                  (answer_user_prompt (research_query s)
                                      (bulleted (facts (memory s))))
                  answer_system_prompt (ext w)
                = (Ok ans, x'))).
Proof.
  intros s s' ans w w' E. unfold research_finish in E.
  apply bind_Ok_inv in E. destruct E as (s2 & w2 & E1 & E2).
  injection E2 as <- <- _.
  destruct (research_complete s) eqn:RC; cbn [negb] in E1.
  - injection E1 as <- _. repeat split. left. split; reflexivity.
  - destruct (generate_final_answer_run _ _ _ _ E1) as (a & x' & G & -> & _).
    repeat split. right. split; [reflexivity |]. exists x'. exact G.
Qed.

(** With a single step allowed the run is one search and the final answer. *)
Lemma research_single_step :
  forall (self : DeepResearcher) (query : string) (w : World W),
    max_steps self = 1 -> 0 < token_budget self ->
    research self query w
    = bind (_execute_search
              (set_current_step (research_start self query) 1)
              [("query", query)])
           (fun s2 =>
              bind (_generate_final_answer s2)
                   (fun s3 => ret (Some (answer s3, s3)))) w.
Proof.
  intros self query w Hm Hb. unfold research, enough_fuel. rewrite Hm.
  rewrite research_with_unfold.
  change (Z.to_nat 1) with 1%nat.
  cbn [research_loop].
  destruct (research_start_fields self query)
    as (S1 & S2 & S3 & S4 & S5 & S6 & S7).
  rewrite S6, S3, S1, Hm. cbn [negb andb Z.ltb Z.compare].
  replace (total_tokens_used (set_current_step (research_start self query) (0 + 1))
           >=? token_budget (set_current_step (research_start self query) (0 + 1)))
    with false
    by (symmetry; cbn; rewrite Z.geb_leb; apply Z.leb_gt; lia).
  replace (_plan_next_action (set_current_step (research_start self query) (0 + 1)))
    with (Ok (SEARCH, [("query", query)]) : Result (ActionType * Params))
    by reflexivity.
  cbn [Z.add Pos.add].
  destruct (_execute_search (set_current_step (research_start self query) 1)
                            [("query", query)] w) as [[s2 | e] w2] eqn:ES.
  2: { rewrite (bind_Raise _ _ _ _ w w2 e ES).
       apply bind_Raise. apply bind_Raise. exact ES. }
  destruct (execute_search_memory _ _ _ _ _ ES) as (m' & ->).
  rewrite (bind_Ok _ _ _ _ w w2 _ ES).
  erewrite bind_Ok.
  2: { erewrite bind_Ok by exact ES.
       cbn [research_loop research_complete set_memory set_current_step
            current_step max_steps].
       rewrite S6, S1, Hm. cbn. reflexivity. }
  reflexivity.
Qed.

(** C7. Whatever the model and the search backend answer, [research]
    leaves its loop after at most [max_steps] iterations (the bound on the
    iterations is never the reason to stop, and [current_step], which counts
    them, ends between zero and [max_steps]). When the loop is left without
    the answer action having run, the final answer is generated all the
    same; so every answer returned is what the model gave for the facts
    held at the end, and is not empty unless the model's text is. With
    [max_steps] equal to one the run is one search followed by the
    generation of the final answer. *)
Theorem research_terminates_and_finalizes :
  forall (self : DeepResearcher) (query : string) (w : World W),
    fst (research self query w) <> Ok None
    /\ (forall fuel : nat,
          (enough_fuel self <= fuel)%nat ->
          research_with fuel self query w = research self query w)
    /\ (forall (ans : string) (s' : DeepResearcher) (w' : World W),
          research self query w = (Ok (Some (ans, s')), w') ->
          0 <= current_step s' <= Z.max 0 (max_steps self)
          /\ answer s' = ans
          /\ exists x x',
              model_generate
                (answer_user_prompt query (bulleted (facts (memory s'))))
                answer_system_prompt x
              = (Ok ans, x'))
    /\ (forall (reason : LoopExit) (s1 : DeepResearcher) (w1 : World W),
          research_loop (enough_fuel self) (research_start self query) w
          = (Ok (Some (reason, s1)), w1) ->
          reason <> ExitAnswered ->
          research self query w
          = bind (_generate_final_answer s1)
                 (fun s2 => ret (Some (answer s2, s2))) w1)
    /\ (max_steps self = 1 -> 0 < token_budget self ->
        research self query w
        = bind (_execute_search
                  (set_current_step (research_start self query) 1)
                  [("query", query)])
               (fun s2 =>
                  bind (_generate_final_answer s2)
                       (fun s3 => ret (Some (answer s3, s3)))) w).
Proof.
  intros self query w.
  pose proof (research_loop_start_fuel self query w) as Hfuel.
  split; [| split; [| split; [| split]]].
  - apply research_not_out_of_fuel.
  - intros fuel L. unfold research. rewrite !research_with_unfold.
    unfold bind. rewrite (research_loop_more_fuel _ fuel _ w Hfuel L).
    reflexivity.
  - intros ans s' w' E. unfold research in E. rewrite research_with_unfold in E.
    apply bind_Ok_inv in E. destruct E as ([[reason s1] |] & w1 & E1 & E2);
      [| discriminate].
    destruct (research_loop_exit _ _ _ _ _ _ E1)
      as (I1 & _ & _ & I4 & I5 & I6 & _ & I8).
    cbn in I1, I4, I5, I6.
    destruct (research_finish_run _ _ _ _ _ E2) as (F1 & F2 & _ & F4 & F5).
    split; [rewrite F2; lia |]. split; [exact F1 |].
    rewrite F4. rewrite <- I4.
    destruct F5 as [[RC ->] | [RC (x' & G)]].
    + rewrite <- F1. apply I8; [reflexivity | exact RC].
    + exists (ext w1), x'. exact G.
  - intros reason s1 w1 E1 Hr. unfold research. rewrite research_with_unfold.
    unfold bind at 1. rewrite E1. unfold research_finish.
    destruct (research_loop_exit _ _ _ _ _ _ E1) as (_ & _ & _ & _ & _ & _ & I7 & _).
    destruct reason; [contradiction | |]; destruct I7 as [-> _]; reflexivity.
  - exact (research_single_step self query w).
Qed.

(** C9. [research] starts with the token counter at zero and nothing in the
    loop changes it: with a positive budget the loop is never left through
    the budget check, only because the answer action ran or because the step
    limit was reached, and the counter is still zero at the end. *)
Theorem token_budget_never_exceeded :
  forall (self : DeepResearcher) (query : string) (w : World W),
    0 < token_budget self ->
    total_tokens_used (research_start self query) = 0
    /\ (forall (fuel : nat) (reason : LoopExit) (s1 : DeepResearcher)
               (w1 : World W),
          research_loop fuel (research_start self query) w
          = (Ok (Some (reason, s1)), w1) ->
          total_tokens_used s1 = 0
          /\ reason <> ExitBudget
          /\ ((reason = ExitAnswered /\ research_complete s1 = true)
              \/ (reason = ExitStepLimit
                  /\ research_complete s1 = false
                  /\ max_steps self <= current_step s1)))
    /\ (forall (ans : string) (s' : DeepResearcher) (w' : World W),
          research self query w = (Ok (Some (ans, s')), w') ->
          total_tokens_used s' = 0).
Proof.
  intros self query w Hb. split; [reflexivity | split].
  - intros fuel reason s1 w1 E.
    destruct (research_loop_exit _ _ _ _ _ _ E)
      as (_ & _ & I3 & _ & _ & _ & I7 & _).
    cbn in I3, I7. split; [exact I3 |]. destruct reason.
    + split; [discriminate |]. left. split; [reflexivity | exact I7].
    + split; [discriminate |]. right. split; [reflexivity | exact I7].
    + lia.
  - intros ans s' w' E. unfold research in E. rewrite research_with_unfold in E.
    apply bind_Ok_inv in E. destruct E as ([[reason s1] |] & w1 & E1 & E2);
      [| discriminate].
    destruct (research_loop_exit _ _ _ _ _ _ E1) as (_ & _ & I3 & _).
    destruct (research_finish_run _ _ _ _ _ E2) as (_ & _ & F3 & _).
    rewrite F3, I3. reflexivity.
Qed.


(** *** The entry points *)

Lemma main_try_body_value :
  forall (args : Args) (w w' : World W) (v : option Z),
    main_try_body args w = (Ok v, w') -> v = Some 0.
Proof.
  intros args w w' v E. unfold main_try_body in E.
  apply bind_Ok_inv in E. destruct E as (u1 & w1 & _ & E).
  apply bind_Ok_inv in E. destruct E as (u2 & w2 & _ & E).
  apply bind_Ok_inv in E. destruct E as (u3 & w3 & _ & E).
  apply bind_Ok_inv in E. destruct E as (out & w4 & ER & E).
  destruct out as [[result s] |].
  - apply bind_Ok_inv in E. destruct E as (u5 & w5 & _ & E).
    apply bind_Ok_inv in E. destruct E as (u6 & w6 & _ & E).
    apply bind_Ok_inv in E. destruct E as (u7 & w7 & _ & E).
    injection E as <- _. reflexivity.
  - exfalso.
    match type of ER with
    | research ?r ?q ?w0 = _ => apply (research_not_out_of_fuel r q w0)
    end.
    rewrite ER. reflexivity.
Qed.

(** What [main] makes of the ways its [try] body can end. *)
Lemma main_outcomes :
  forall (args : Args) (w : World W),
    (forall v w',
        main_try_body args w = (Ok v, w') ->
        main (Parsed args) w = (Ok (Some 0), w')
        /\ run_main (Parsed args) w = Some (Exited 0))
    /\ (forall cls msg w',
          main_try_body args w = (Raise (Exc cls msg), w') ->
          main (Parsed args) w
          = (Ok (Some 1), mkWorld (ext w') (events w' ++ [Print ("Error: " ++ msg)]))
          /\ run_main (Parsed args) w = Some (Exited 1))
    /\ (forall w',
          main_try_body args w = (Raise KeyboardInterrupt, w') ->
          main (Parsed args) w = (Raise KeyboardInterrupt, w')
          /\ run_main (Parsed args) w = Some KilledBySIGINT).
Proof.
  intros args w. split; [| split].
  - intros v w' E. pose proof (main_try_body_value args w w' v E) as ->.
    unfold run_main, main, try_except_Exception. rewrite E. split; reflexivity.
  - intros cls msg w' E.
    unfold run_main, main, try_except_Exception. rewrite E. split; reflexivity.
  - intros w' E.
    unfold run_main, main, try_except_Exception. rewrite E. split; reflexivity.
Qed.

(** The interactive entry point turns an interruption of its [try] body
    into the return value 1. *)
Lemma example_main_interrupted :
  forall (w w' : World W),
    example_try_body w = (Raise KeyboardInterrupt, w') ->
    try_except_Interrupt_Exception
      example_try_body
      (print (PyStr.nl ++ "Research interrupted by user.") ;;; ret (Some 1))
      (fun e => print ("Error: " ++ exc_str e) ;;; ret (Some 1)) w
    = (Ok (Some 1),
       mkWorld (ext w')
               (events w'
                ++ [Print (PyStr.nl ++ "Research interrupted by user.")])).
Proof.
  intros w w' E. unfold try_except_Interrupt_Exception. rewrite E. reflexivity.
Qed.

(* ================================================================== *)
(** ** Further properties *)

(** *** Similarity *)












(** *** Deduplication in the memory *)










Lemma In_trim :
  forall (A : Type) (cap : Z) (l : list A) (x : A), In x (trim cap l) -> In x l.
Proof.
  intros A cap l x. unfold trim. destruct (_ >? _); [| tauto].
  destruct l as [| y l]; [tauto | intros H; right; exact H].
Qed.






(** *** Visited sources, capacity of every list, formatted facts *)

Lemma NoDup_snoc :
  forall (l : list string) (x : string), NoDup l -> ~ In x l -> NoDup (l ++ [x]).
Proof.
  intros l x D N. apply NoDup_Add with (a := x) (l := l).
  - rewrite <- (app_nil_r l) at 1. apply Add_app.
  - split; assumption.
Qed.

Lemma NoDup_trim :
  forall (cap : Z) (l : list string), NoDup l -> NoDup (trim cap l).
Proof.
  intros cap l D. unfold trim. destruct (_ >? _); [| exact D].
  destruct l as [| x l]; [exact D |]. inversion D; assumption.
Qed.

Lemma apply_op_visited_NoDup :
  forall (m m' : ResearchMemory) (op : MemOp) (w w' : World W),
    NoDup (visited_sources m) -> apply_op m op w = (Ok m', w') ->
    NoDup (visited_sources m').
Proof.
  intros m m' op w w' D E.
  destruct op as [c s md | q | q | q | s]; unfold apply_op in E.
  - destruct (add_fact_run m c s md w) as (b & w1 & _ & E1).
    unfold bind in E. rewrite E1 in E. destruct b; injection E as <- _; exact D.
  - destruct (add_question_run m q w) as (b & w1 & _ & E1).
    unfold bind in E. rewrite E1 in E. destruct b; injection E as <- _; exact D.
  - injection E as <- _. unfold mark_question_answered.
    destruct (str_in q (questions m)); exact D.
  - destruct (add_search_query_run m q w) as (b & w1 & E1).
    unfold bind in E. rewrite E1 in E. destruct b; injection E as <- _; exact D.
  - injection E as <- _. unfold add_visited_source.
    destruct (str_in s (visited_sources m)) eqn:I; [exact D |].
    cbn. apply NoDup_trim. apply NoDup_snoc; [exact D |].
    apply str_in_not_In. exact I.
Qed.

(** X6. [add_visited_source] compares strings exactly: it answers [False] and
    changes nothing exactly when the source is already recorded, and in every
    memory reached by a sequence of operations no source is recorded
    twice. *)
Theorem visited_sources_distinct :
  (forall (m : ResearchMemory) (s : string),
      (fst (add_visited_source m s) = false <-> In s (visited_sources m))
      /\ (In s (visited_sources m) -> snd (add_visited_source m s) = m)
      /\ (~ In s (visited_sources m) ->
          visited_sources (snd (add_visited_source m s))
          = trim (max_items m) (visited_sources m ++ [s])))
  /\ (forall (ops : list MemOp) (w w' : World W) (m : ResearchMemory),
        run_ops ops w = (Ok m, w') -> NoDup (visited_sources m)).
Proof.
  split.
  - intros m s. unfold add_visited_source.
    destruct (str_in s (visited_sources m)) eqn:I.
    + apply str_in_In in I. cbn [fst snd].
      split; [split; [intros _; exact I | reflexivity] |].
      split; [reflexivity | intros N; contradiction].
    + apply str_in_not_In in I. cbn [fst snd].
      split; [split; [discriminate | intros X; contradiction] |].
      split; [intros X; contradiction | intros _; reflexivity].
  - intros ops w w' m E. unfold run_ops in E.
    refine (for_each_invariant _ _ apply_op
              (fun m0 => NoDup (visited_sources m0)) _ ops _ w m w' _ E).
    + intros acc x w0 acc' w0' Hp E0.
      exact (apply_op_visited_NoDup acc acc' x w0 w0' Hp E0).
    + cbn. constructor.
Qed.

(** X7. With a capacity that is not negative, the answered questions, the
    recorded search queries and the visited sources never exceed
    [max_items] either, and no operation changes [max_items]. *)
Theorem memory_lists_bounded :
  0 <= MAX_MEMORY_ITEMS config ->
  forall (ops : list MemOp) (w w' : World W) (m : ResearchMemory),
    run_ops ops w = (Ok m, w') ->
    max_items m = MAX_MEMORY_ITEMS config
    /\ Z.of_nat (List.length (answered_questions m)) <= max_items m
    /\ Z.of_nat (List.length (search_queries m)) <= max_items m
    /\ Z.of_nat (List.length (visited_sources m)) <= max_items m.
Proof.
  intros Hc ops w w' m E.
  destruct (run_ops_within_capacity ops w w' m Hc E)
    as (H1 & _ & _ & H4 & H5 & H6).
  repeat split; assumption.
Qed.

Lemma py_from_split :
  forall (A : Type) (start : Z) (l : list A),
    exists before : list A,
      l = (before ++ py_from start l)%list
      /\ List.length before
         = (if start <? 0
            then Z.to_nat (Z.of_nat (List.length l) + start)
            else Nat.min (Z.to_nat start) (List.length l)).
Proof.
  intros A start l. unfold py_from. destruct (start <? 0) eqn:S.
  - exists (firstn (Z.to_nat (Z.of_nat (List.length l) + start)) l).
    split; [symmetry; apply firstn_skipn |].
    rewrite length_firstn. apply Z.ltb_lt in S. lia.
  - exists (firstn (Z.to_nat start) l).
    split; [symmetry; apply firstn_skipn |]. apply length_firstn.
Qed.

(** X8. [get_formatted_facts] formats the most recent facts, one line per fact:
    for a positive bound the last [min max_facts n] of the [n] facts, and
    all of them without a bound. A bound of zero does not give the empty
    text: [facts[-0:]] is the whole list, so all facts are formatted. A
    negative bound leaves out the first [-max_facts] facts. *)
Theorem get_formatted_facts_recent :
  forall (m : ResearchMemory) (k : Z),
    get_formatted_facts m None = bulleted (facts m)
    /\ get_formatted_facts m (Some 0) = bulleted (facts m)
    /\ exists older recent : list MemoryItem,
        facts m = (older ++ recent)%list
        /\ get_formatted_facts m (Some k) = bulleted recent
        /\ List.length recent
           = (if 0 <? k
              then Nat.min (Z.to_nat k) (List.length (facts m))
              else (List.length (facts m)
                    - Nat.min (Z.to_nat (- k)) (List.length (facts m)))%nat).
Proof.
  intros m k. split; [reflexivity | split; [reflexivity |]].
  destruct (py_from_split _ (- k) (facts m)) as (older & E & L).
  exists older, (py_from (- k) (facts m)). split; [exact E | split].
  - reflexivity.
  - assert (T : List.length (facts m)
                = (List.length older
                   + List.length (py_from (- k) (facts m)))%nat)
      by (rewrite E at 1; apply length_app).
    destruct (Z.ltb_spec (- k) 0) as [N | N];
      destruct (Z.ltb_spec 0 k) as [P | P]; lia.
Qed.

Lemma insert_desc_perm :
  forall (A : Type) (x : A * npfloat) (l : list (A * npfloat)),
    Permutation (insert_desc x l) (x :: l).
Proof.
  intros A x. induction l as [| y l IH]; [apply Permutation_refl |].
  cbn [insert_desc]. destruct (np_lt (snd x) (snd y)).
  - apply Permutation_trans with (y :: x :: l).
    + apply perm_skip. exact IH.
    + apply perm_swap.
  - apply Permutation_refl.
Qed.

Lemma sort_by_score_desc_perm :
  forall (A : Type) (l : list (A * npfloat)),
    Permutation (sort_by_score_desc l) l.
Proof.
  intros A. induction l as [| x l IH]; [apply Permutation_refl |].
  unfold sort_by_score_desc in *. cbn [fold_right].
  apply Permutation_trans with (x :: fold_right insert_desc [] l).
  - apply insert_desc_perm.
  - apply perm_skip. exact IH.
Qed.

Lemma map_fst_combine :
  forall (A B : Type) (l : list A) (l' : list B),
    List.length l = List.length l' -> map fst (combine l l') = l.
Proof.
  intros A B. induction l as [| x l IH]; intros [| y l'] H;
    try discriminate; [reflexivity |].
  cbn. f_equal. apply IH. cbn in H. lia.
Qed.

(** X9. Whatever the similarities are, [get_relevant_facts] only selects: its
    result is the beginning of a rearrangement of the facts of the memory,
    so it holds no fact that the memory does not hold and none more often;
    with a bound of at least the number of facts it is a rearrangement of
    all of them. *)
Theorem get_relevant_facts_selects :
  forall (m : ResearchMemory) (query : string) (k : Z) (w : World W),
    exists (ranked selected : list MemoryItem) (w' : World W),
      get_relevant_facts m query k w = (Ok selected, w')
      /\ Permutation ranked (facts m)
      /\ selected = py_take k ranked
      /\ (0 <= k -> exists others, Permutation (selected ++ others) (facts m))
      /\ (Z.of_nat (List.length (facts m)) <= k ->
          Permutation selected (facts m)).
Proof.
  intros m query k w. destruct (facts m) as [| f F] eqn:EF.
  - exists [], [], w. unfold get_relevant_facts. rewrite EF.
    split; [reflexivity | split; [constructor | split]].
    + unfold py_take. destruct (0 <=? k); rewrite firstn_nil; reflexivity.
    + split; [intros _; exists []; constructor | intros _; constructor].
  - rewrite <- EF.
    assert (Hne : facts m <> []) by (rewrite EF; discriminate).
    set (pairs := sort_by_score_desc
                    (combine (facts m)
                             (similarities_to query (map content (facts m))))).
    assert (P : Permutation (map fst pairs) (facts m)).
    { apply Permutation_trans
        with (map fst (combine (facts m)
                               (similarities_to query (map content (facts m))))).
      - apply Permutation_map. apply sort_by_score_desc_perm.
      - rewrite map_fst_combine; [apply Permutation_refl |].
        unfold similarities_to. rewrite !length_map. reflexivity. }
    exists (map fst pairs), (py_take k (map fst pairs)),
      (after_embedding w (query :: map content (facts m))).
    split; [| split; [exact P | split; [reflexivity | split]]].
    + rewrite (get_relevant_facts_run m query k w Hne). fold pairs.
      rewrite py_take_map. reflexivity.
    + intros Hk. exists (skipn (Z.to_nat k) (map fst pairs)).
      unfold py_take. destruct (Z.leb_spec 0 k); [| lia].
      rewrite firstn_skipn. exact P.
    + intros Hk. unfold py_take.
      destruct (Z.leb_spec 0 k); [| lia].
      rewrite firstn_all2; [exact P |].
      rewrite (Permutation_length P). lia.
Qed.


(** *** The news search and the fallbacks of query expansion *)

Lemma rstrip_head :
  forall (t : string) (c : ascii) (r : string),
    PyStr.rstrip t = String c r -> exists r', t = String c r'.
Proof.
  intros [| d rest] c r H; [discriminate |]. cbn [PyStr.rstrip] in H.
  destruct (PyStr.isspace d && PyStr.is_empty (PyStr.rstrip rest));
    [discriminate |].
  injection H as -> _. exists rest. reflexivity.
Qed.

Lemma strip_head_not_space :
  forall (s : string) (c : ascii) (r : string),
    PyStr.strip s = String c r -> PyStr.isspace c = false.
Proof.
  intros s c r H. unfold PyStr.strip in H.
  destruct (rstrip_head _ _ _ H) as (r' & E).
  destruct (lstrip_spec s) as (ws & _ & _ & B). apply B. rewrite E. reflexivity.
Qed.

Lemma rstrip_idem :
  forall s : string, PyStr.rstrip (PyStr.rstrip s) = PyStr.rstrip s.
Proof.
  induction s as [| d rest IH]; [reflexivity |]. cbn [PyStr.rstrip].
  destruct (PyStr.isspace d && PyStr.is_empty (PyStr.rstrip rest)) eqn:C;
    [reflexivity |].
  cbn [PyStr.rstrip]. rewrite IH, C. reflexivity.
Qed.

(** Stripping twice is stripping once. *)
Lemma strip_idem :
  forall s : string, PyStr.strip (PyStr.strip s) = PyStr.strip s.
Proof.
  intros s. destruct (PyStr.strip s) as [| c r] eqn:E; [reflexivity |].
  pose proof (strip_head_not_space s c r E) as Sp.
  unfold PyStr.strip at 1. cbn [PyStr.lstrip]. rewrite Sp.
  rewrite <- E. unfold PyStr.strip. apply rstrip_idem.
Qed.

Lemma flat_map_filter_Forall2 :
  forall (A B : Type) (P : A -> B -> Prop) (g : A -> bool) (F : A -> list B),
    (forall x, g x = false -> F x = []) ->
    (forall x, g x = true -> exists b, F x = [b] /\ P x b) ->
    forall l : list A, Forall2 P (filter g l) (flat_map F l).
Proof.
  intros A B P g F H0 H1. induction l as [| x l IH]; [constructor |].
  cbn [filter flat_map]. destruct (g x) eqn:G.
  - destruct (H1 x G) as (b & -> & Hp). cbn. constructor; assumption.
  - rewrite (H0 x G). exact IH.
Qed.

(** X10. A reply of the news backend that is empty or white space only gives no
    article, and an error of the backend is passed on. Otherwise there is
    one article for every item between blank lines that is not blank, in
    order: its source is the fixed label, its title is the first line of
    the stripped item, never empty and without a line break, and its
    content is the rest of the stripped item, so that title and content
    joined by a line break give the stripped item back. *)
Theorem finance_news_search_articles :
  forall (query : json) (w : World W),
    match yahoo_invoke query (ext w) with
    | (Raise e, x') =>
        finance_news_search query w = (Raise e, mkWorld x' (events w))
    | (Ok result, x') =>
        exists articles : list Article,
          finance_news_search query w = (Ok articles, mkWorld x' (events w))
          /\ (PyStr.strip result = "" -> articles = [])
          /\ (PyStr.strip result <> "" ->
              Forall2
                (fun item a =>
                   a_source a = "Yahoo Finance News"
                   /\ a_title a <> ""
                   /\ (forall n, String.get n (a_title a) <> Some PyStr.newline)
                   /\ (PyStr.strip item = a_title a /\ a_content a = ""
                       \/ PyStr.strip item
                          = a_title a ++ PyStr.nl ++ a_content a))
                (filter (fun item => PyStr.truthy (PyStr.strip item))
                        (PyStr.split_blank result))
                articles)
    end.
Proof.
  intros query w. unfold finance_news_search, bind, call.
  destruct (yahoo_invoke query (ext w)) as [[result | e] x']; [| reflexivity].
  destruct (negb (PyStr.truthy result) || PyStr.is_empty (PyStr.strip result))
    eqn:C.
  - exists []. split; [reflexivity | split; [reflexivity |]].
    intros N. exfalso. apply orb_prop in C. destruct C as [C | C].
    + destruct result; [| discriminate]. apply N. reflexivity.
    + destruct (PyStr.strip result); [apply N; reflexivity | discriminate].
  - eexists. split; [reflexivity | split].
    + intros E. rewrite E in C. rewrite orb_true_r in C. discriminate.
    + intros _. apply flat_map_filter_Forall2.
      * intros item G. rewrite G. reflexivity.
      * intros item G. rewrite G. cbn [negb].
        destruct (PyStr.strip item) as [| c r] eqn:E; [discriminate |].
        pose proof (strip_head_not_space item c r E) as Sp.
        assert (Nc : Ascii.eqb c PyStr.newline = false).
        { destruct (Ascii.eqb_spec c PyStr.newline) as [-> | _];
            [discriminate | reflexivity]. }
        pose proof (join_split PyStr.newline (String c r)) as J.
        pose proof (split_pieces PyStr.newline (String c r)) as Pc.
        cbn [PyStr.split] in J, Pc |- *. rewrite Nc in J, Pc |- *.
        pose proof (split_nonempty PyStr.newline r) as NE.
        destruct (PyStr.split PyStr.newline r) as [| p ps]; [contradiction |].
        eexists. split; [reflexivity |]. cbn [a_source a_title a_content].
        split; [reflexivity | split; [discriminate | split]].
        -- apply Pc. left. reflexivity.
        -- destruct ps as [| p2 ps].
           ++ left. split; [| reflexivity]. symmetry. exact J.
           ++ right. symmetry. exact J.
Qed.

Lemma stripped_lines_shape :
  forall text : string,
    Forall (fun q => q <> "" /\ PyStr.strip q = q) (stripped_lines text).
Proof.
  intros text. unfold stripped_lines. apply Forall_forall. intros q I.
  apply in_map_iff in I. destruct I as (line & <- & I).
  apply filter_In in I. destruct I as [_ T]. split.
  - intros E. rewrite E in T. discriminate.
  - apply strip_idem.
Qed.

(** X11. The fallbacks of query expansion. An error of the model is passed on.
    A response without a list under [queries] whose [text] is not a string
    raises an [AttributeError]: the first use of the text is caught, the
    second one is not. With a text that holds no parseable list the result
    is never empty: it is the original query alone, or lines of the text,
    none of them empty and none with white space at either end. *)
Theorem expand_query_fallback_shape :
  forall (query : string) (context : option string) (w : World W),
    match model_generate_structured (expansion_user_prompt query context)
            expansion_system_prompt expansion_schema (Some (5 / 10)%R) (ext w)
    with
    | (Raise e, x') =>
        expand_query query context w = (Raise e, mkWorld x' (events w))
    | (Ok response, x') =>
        let w' := mkWorld x' (events w) in
        let no_list :=
          forall qs, dict_get response "queries" <> Some (JList qs) in
        (forall v,
            no_list -> dict_get response "text" = Some v ->
            (forall s, v <> JStr s) ->
            exists msg,
              expand_query query context w
              = (Raise (Exc "AttributeError" msg), w'))
        /\ (forall text,
              no_list -> dict_get response "text" = Some (JStr text) ->
              bracketed_list text = None ->
              exists qs : list string,
                expand_query query context w = (Ok (map JStr qs), w')
                /\ qs <> []
                /\ (qs = [query]
                    \/ Forall (fun q => q <> "" /\ PyStr.strip q = q) qs))
    end.
Proof.
  intros query context w.
  destruct (model_generate_structured _ _ _ _ (ext w)) as [[response | e] x']
    eqn:Hc.
  - pose proof (expand_query_extract query context w response x' Hc) as E.
    cbv zeta. split.
    + intros v Hno Ht Hv. rewrite E. unfold extract_queries.
      destruct (dict_get response "queries") as [[| | | | | qs |] |] eqn:Eq;
        try (exfalso; exact (Hno qs eq_refl));
        rewrite Ht;
        (destruct v as [| | | | s0 | |];
         try (exfalso; exact (Hv s0 eq_refl)); eexists; reflexivity).
    + intros text Hno Ht Hb. rewrite E. unfold extract_queries.
      pose proof (stripped_lines_shape text) as Sh.
      destruct (dict_get response "queries") as [[| | | | | qs |] |] eqn:Eq;
        try (exfalso; exact (Hno qs eq_refl));
        rewrite Ht, Hb;
        (destruct (stripped_lines text) as [| q qs'] eqn:EL;
         [ exists [query]; split; [reflexivity | split; [discriminate | left; reflexivity]]
         | exists (q :: qs'); split; [reflexivity | split; [discriminate | right; exact Sh]] ]).
  - unfold expand_query, bind, call. rewrite Hc. reflexivity.
Qed.


(** *** The planner and the limits of a run *)

(** X12. The planner always gives an action and never the read action. It
    reasons only about the first open question, with at least three facts
    and at a step that is no multiple of three; it answers only when no
    question is open and at least one fact is held; and every search is for
    the original query or for the first open question. *)
Theorem plan_never_reads :
  forall self : DeepResearcher,
    let fc := Z.of_nat (List.length (facts (memory self))) in
    exists (action : ActionType) (params : Params),
      _plan_next_action self = Ok (action, params)
      /\ action <> READ
      /\ (action = REASON ->
          3 <= fc /\ current_step self mod 3 <> 0
          /\ exists q rest,
              questions (memory self) = q :: rest
              /\ params = [("focus_question", q)])
      /\ (action = ANSWER ->
          questions (memory self) = [] /\ 1 <= fc /\ params = []
          /\ (3 <= fc \/ max_steps self / 2 <= current_step self))
      /\ (action = SEARCH ->
          exists q,
            params = [("query", q)]
            /\ (q = research_query self
                \/ hd_error (questions (memory self)) = Some q)).
Proof.
  intros self fc. unfold _plan_next_action, get_summary, get_unanswered_questions.
  cbn [s_facts s_questions]. fold fc.
  destruct (Z.eqb_spec fc 0) as [E0 | N0].
  - exists SEARCH, [("query", research_query self)].
    split; [reflexivity | split; [discriminate |]].
    split; [discriminate | split; [discriminate |]].
    intros _. eexists. split; [reflexivity | left; reflexivity].
  - assert (Hfc : 1 <= fc) by (unfold fc in *; lia).
    destruct (questions (memory self)) as [| q rest] eqn:EQ.
    + cbn [List.length Z.of_nat Z.gtb Z.compare].
      destruct ((fc >=? 3) || (current_step self >=? max_steps self / 2)) eqn:C.
      * exists ANSWER, []. split; [reflexivity | split; [discriminate |]].
        split; [discriminate | split; [| discriminate]].
        intros _. split; [reflexivity | split; [exact Hfc | split; [reflexivity |]]].
        apply orb_prop in C. destruct C as [C | C].
        -- left. destruct (Z.geb_spec fc 3); [lia | discriminate].
        -- right.
           destruct (Z.geb_spec (current_step self) (max_steps self / 2));
             [lia | discriminate].
      * exists SEARCH, [("query", research_query self)].
        split; [reflexivity | split; [discriminate |]].
        split; [discriminate | split; [discriminate |]].
        intros _. eexists. split; [reflexivity | left; reflexivity].
    + replace (Z.of_nat (List.length (q :: rest)) >? 0) with true
        by (symmetry; apply Z.gtb_lt; cbn [List.length]; lia).
      destruct ((current_step self mod 3 =? 0) || (fc <? 3)) eqn:C.
      * exists SEARCH, [("query", q)].
        split; [reflexivity | split; [discriminate |]].
        split; [discriminate | split; [discriminate |]].
        intros _. eexists. split; [reflexivity | right; reflexivity].
      * exists REASON, [("focus_question", q)].
        split; [reflexivity | split; [discriminate |]].
        apply orb_false_elim in C. destruct C as [C1 C2].
        apply Z.eqb_neq in C1. apply Z.ltb_ge in C2.
        split; [| split; discriminate].
        intros _. split; [exact C2 | split; [exact C1 |]].
        exists q, rest. split; reflexivity.
Qed.

(** X13. The limits of a run at their edges. A step limit of 0 given to the
    constructor means the configured default, any other number is taken as
    it is, also a negative one. With a step limit of zero or less the loop
    is not entered, and with a token budget of zero or less it is left in
    its first iteration: in both cases nothing is searched and nothing is
    embedded, the model is asked once for an answer from no facts, and an
    error of that call is the outcome of the run. *)
Theorem research_without_steps :
  (max_steps (DeepResearcher_init (Some 0)) = MAX_STEPS config
   /\ forall z, z <> 0 -> max_steps (DeepResearcher_init (Some z)) = z)
  /\ forall (self : DeepResearcher) (query : string) (w : World W),
      let answered (s : DeepResearcher) :=
        match model_generate (answer_user_prompt query "") answer_system_prompt
                             (ext w) with
        | (Ok a, x') =>
            (Ok (Some (a, set_answer s a)), mkWorld x' (events w))
        | (Raise e, x') => (Raise e, mkWorld x' (events w))
        end in
      (max_steps self <= 0 ->
       research self query w = answered (research_start self query))
      /\ (0 < max_steps self -> token_budget self <= 0 ->
          research self query w
          = answered (set_current_step (research_start self query) 1)).
Proof.
  split.
  - split; [reflexivity |]. intros z Hz. cbn.
    destruct (Z.eqb_spec z 0); [contradiction | reflexivity].
  - intros self query w answered.
    destruct (research_start_fields self query)
      as (S1 & S2 & S3 & S4 & S5 & S6 & S7).
    split.
    + intros Hm. unfold research, enough_fuel.
      rewrite research_with_unfold. cbn [research_loop].
      rewrite S6, S3, S1. cbn [negb andb].
      replace (0 <? max_steps self) with false
        by (symmetry; apply Z.ltb_ge; exact Hm).
      unfold answered, bind, ret, research_finish, bind. rewrite S6.
      cbn [negb]. unfold _generate_final_answer, bind, call.
      rewrite S5, S7. cbn [map bulleted PyStr.join].
      change (bulleted []) with "".
      destruct (model_generate _ _ (ext w)) as [[a | e] x']; reflexivity.
    + intros Hm Hb. unfold research, enough_fuel.
      rewrite research_with_unfold. cbn [research_loop].
      rewrite S6, S3, S1. cbn [negb andb].
      replace (0 <? max_steps self) with true
        by (symmetry; apply Z.ltb_lt; exact Hm).
      replace (total_tokens_used
                 (set_current_step (research_start self query) (0 + 1))
               >=? token_budget
                     (set_current_step (research_start self query) (0 + 1)))
        with true
        by (symmetry; cbn; rewrite Z.geb_leb; apply Z.leb_le; exact Hb).
      unfold answered, bind, ret, research_finish, bind.
      cbn [Z.add Pos.add].
      replace (research_complete (set_current_step (research_start self query) 1))
        with false by reflexivity.
      cbn [negb]. unfold _generate_final_answer, bind, call.
      change (bulleted
                (facts (memory (set_current_step (research_start self query) 1))))
        with "".
      change (research_query (set_current_step (research_start self query) 1))
        with query.
      destruct (model_generate _ _ (ext w)) as [[a | e] x']; reflexivity.
Qed.


(** *** What a run does to the memory *)










Lemma for_each_invariant_Forall :
  forall (A S : Type) (body : S -> A -> M W S) (P : S -> Prop) (R : A -> Prop),
    (forall acc x w acc' w',
        R x -> P acc -> body acc x w = (Ok acc', w') -> P acc') ->
    forall (xs : list A) (acc : S) (w : World W) (acc' : S) (w' : World W),
      Forall R xs -> P acc -> for_each xs body acc w = (Ok acc', w') -> P acc'.
Proof.
  intros A S body P R Hb. induction xs as [| x xs IH];
    intros acc w acc' w' HR Hp E.
  - injection E as <- _. exact Hp.
  - cbn [for_each] in E. apply bind_Ok_inv in E.
    destruct E as (acc1 & w1 & E1 & E2). inversion HR as [| ? ? Rx Rxs]; subst.
    exact (IH acc1 w1 acc' w' Rxs (Hb acc x w acc1 w1 Rx Hp E1) E2).
Qed.

(** Every article of the news search carries the fixed label and a title
    that is not empty. *)
Lemma finance_news_search_labels :
  forall (query : json) (w w' : World W) (articles : list Article),
    finance_news_search query w = (Ok articles, w') ->
    Forall (fun a => a_source a = "Yahoo Finance News" /\ a_title a <> "")
           articles.
Proof.
  intros query w w' articles E. unfold finance_news_search, bind, call in E.
  destruct (yahoo_invoke query (ext w)) as [[result | e] x']; [| discriminate].
  destruct (_ || _); injection E as <- _; [constructor |].
  apply Forall_forall. intros a I. apply in_flat_map in I.
  destruct I as (item & _ & I).
  destruct (PyStr.strip item) as [| c r] eqn:ES; [contradiction |].
  cbn [PyStr.truthy PyStr.is_empty negb] in I.
  pose proof (strip_head_not_space item c r ES) as Sp.
  assert (Nc : Ascii.eqb c PyStr.newline = false).
  { destruct (Ascii.eqb_spec c PyStr.newline) as [-> | _];
      [discriminate | reflexivity]. }
  cbn [PyStr.split] in I. rewrite Nc in I.
  pose proof (split_nonempty PyStr.newline r) as NE.
  destruct (PyStr.split PyStr.newline r) as [| p ps]; [contradiction |].
  destruct I as [<- | []]. split; [reflexivity | discriminate].
Qed.

(** X16. A search touches the facts and the search queries only: the questions,
    the answered questions, the visited sources and the capacity are as
    before, the query is recorded unless it duplicates a recorded one, and
    every fact that is new comes from an article: its content is the title,
    a colon and the body, its source the provider's label, a dash and the
    title, and its metadata are empty. *)
Theorem execute_search_effect :
  forall (self self' : DeepResearcher) (params : Params) (w w' : World W),
    _execute_search self params w = (Ok self', w') ->
    let query := params_get params "query" (research_query self) in
    let m := memory self in
    let m' := memory self' in
    self' = set_memory self m'
    /\ max_items m' = max_items m
    /\ questions m' = questions m
    /\ answered_questions m' = answered_questions m
    /\ visited_sources m' = visited_sources m
    /\ (search_queries m' = search_queries m
        \/ search_queries m'
           = trim (max_items m) (search_queries m ++ [query]))
    /\ (forall f,
          In f (facts m') ->
          In f (facts m)
          \/ exists title body,
              title <> ""
              /\ content f = title ++ ": " ++ body
              /\ source f = "Yahoo Finance News - " ++ title
              /\ metadata f = []).
Proof.
  intros self self' params w w' E query m m'. subst m'.
  unfold _execute_search in E. fold query in E.
  apply bind_Ok_inv in E. destruct E as (qs & w1 & _ & E).
  apply bind_Ok_inv in E. destruct E as (r & w2 & E1 & E).
  apply bind_Ok_inv in E. destruct E as (arts & w3 & EA & E).
  apply bind_Ok_inv in E. destruct E as (m2 & w4 & E2 & E).
  injection E as <- _. cbn [memory set_memory]. fold m in E1, E2.
  set (lab := fun a => a_source a = "Yahoo Finance News" /\ a_title a <> "").
  assert (La : Forall lab arts).
  { refine (for_each_invariant _ _ _ (Forall lab) _ qs [] w2 arts w3 _ EA).
    - intros acc x w0 acc' w0' Ha E0.
      apply bind_Ok_inv in E0. destruct E0 as (articles & w5 & E0 & E3).
      injection E3 as <- _. apply Forall_app. split; [exact Ha |].
      exact (finance_news_search_labels x w0 w5 articles E0).
    - constructor. }
  set (P := fun m0 : ResearchMemory =>
              max_items m0 = max_items m
              /\ questions m0 = questions m
              /\ answered_questions m0 = answered_questions m
              /\ visited_sources m0 = visited_sources m
              /\ (search_queries m0 = search_queries m
                  \/ search_queries m0
                     = trim (max_items m) (search_queries m ++ [query]))
              /\ (forall f,
                    In f (facts m0) ->
                    In f (facts m)
                    \/ exists title body,
                        title <> ""
                        /\ content f = title ++ ": " ++ body
                        /\ source f = "Yahoo Finance News - " ++ title
                        /\ metadata f = [])).
  assert (P1 : P (snd r)).
  { destruct (add_search_query_run m query w1) as (b & w1' & E0).
    rewrite E0 in E1. injection E1 as <- _.
    destruct b; cbn [snd]; unfold P; cbn;
      repeat split; try reflexivity; try (left; reflexivity);
      try (right; reflexivity); intros f I; left; exact I. }
  enough (P2 : P m2) by (split; [reflexivity | exact P2]).
  refine (for_each_invariant_Forall _ _ _ P lab _ arts (snd r) w3 m2 w4 La P1 E2).
  intros acc a w0 acc' w0' (Ls & Lt) (Q1 & Q2 & Q3 & Q4 & Q5 & Q6) E0.
  destruct (add_fact_run acc (a_title a ++ ": " ++ a_content a)
                         (a_source a ++ " - " ++ a_title a) None w0)
    as (b & w0'' & _ & E3).
  unfold bind in E0. rewrite E3 in E0.
  destruct b; injection E0 as <- _; cbn [snd].
  - repeat split; assumption.
  - unfold P. cbn. repeat split; try assumption.
    intros f I. apply In_trim in I. apply in_app_or in I.
    destruct I as [I | [<- | []]]; [exact (Q6 f I) |].
    right. exists (a_title a), (a_content a). cbn. rewrite Ls.
    repeat split. exact Lt.
Qed.


(** *** The configuration *)

Lemma override_from_env_shape :
  forall (env : list (string * string)) (defaults cfg : list (string * CfgVal)),
    override_from_env env defaults = Ok cfg ->
    Forall2
      (fun d c =>
         fst c = fst d
         /\ match assoc_get env (fst d) with
            | None => snd c = snd d
            | Some text => convert_env (snd d) text = Ok (snd c)
            end)
      defaults cfg.
Proof.
  intros env. induction defaults as [| [key v] rest IH]; intros cfg E.
  - injection E as <-. constructor.
  - cbn [override_from_env] in E.
    destruct (assoc_get env key) as [text |] eqn:G.
    + destruct (convert_env v text) as [v' | e] eqn:C; [| discriminate].
      destruct (override_from_env env rest) as [rest' | e]; [| discriminate].
      injection E as <-. constructor; [| apply IH; reflexivity].
      cbn [fst snd]. rewrite G. split; [reflexivity | exact C].
    + destruct (override_from_env env rest) as [rest' | e]; [| discriminate].
      injection E as <-. constructor; [| apply IH; reflexivity].
      cbn [fst snd]. rewrite G. split; reflexivity.
Qed.

Lemma convert_env_type :
  forall (d c : CfgVal) (text : string),
    (forall b, d <> CBool b) -> convert_env d text = Ok c ->
    same_type d c = true.
Proof.
  intros d c text Hb E. destruct d as [s | z | r | b]; cbn in E.
  - injection E as <-. reflexivity.
  - destruct (py_int text); [injection E as <-; reflexivity | discriminate].
  - destruct (py_float text); [injection E as <-; reflexivity | discriminate].
  - exfalso. exact (Hb b eq_refl).
Qed.

Lemma override_from_env_raises :
  forall (env : list (string * string)) (defaults : list (string * CfgVal))
         (key text : string) (d : CfgVal) (e : PyExc),
    In (key, d) defaults -> assoc_get env key = Some text ->
    convert_env d text = Raise e ->
    exists e', override_from_env env defaults = Raise e'.
Proof.
  intros env. induction defaults as [| [k v] rest IH];
    intros key text d e I G C; [contradiction |].
  cbn [override_from_env]. destruct I as [I | I].
  - injection I as -> ->. rewrite G, C. exists e. reflexivity.
  - destruct (match assoc_get env k with
              | Some env_value => convert_env v env_value
              | None => Ok v
              end) as [v' | e0]; [| exists e0; reflexivity].
    destruct (IH key text d e I G C) as (e' & ->). exists e'. reflexivity.
Qed.

(** X17. [get_config] keeps the keys of the defaults and their order. An entry
    whose key is not in the environment keeps its default; one whose key is
    in the environment is the environment's text converted to the type of
    the default, so every entry keeps the type of its default and the four
    entries that the core reads are always there to be read. A text that
    does not convert makes [get_config] raise: there is no falling back to
    the default. A boolean default would be converted with [int], since a
    [bool] is an [int] for [isinstance]; the defaults hold none. *)
Theorem get_config_overrides :
  forall env : list (string * string),
    (forall cfg,
        get_config env = Ok cfg ->
        map fst cfg = map fst DEFAULT_CONFIG_DICT
        /\ Forall2 (fun d c => same_type (snd d) (snd c) = true)
                   DEFAULT_CONFIG_DICT cfg
        /\ (forall key,
              assoc_get env key = None ->
              assoc_get cfg key = assoc_get DEFAULT_CONFIG_DICT key)
        /\ (forall key text d,
              assoc_get env key = Some text ->
              assoc_get DEFAULT_CONFIG_DICT key = Some d ->
              exists v, convert_env d text = Ok v /\ assoc_get cfg key = Some v)
        /\ exists c, config_record cfg = Some c)
    /\ (forall key text d e,
          In (key, d) DEFAULT_CONFIG_DICT ->
          assoc_get env key = Some text ->
          convert_env d text = Raise e ->
          exists e', get_config env = Raise e')
    /\ (forall b text, convert_env (CBool b) text = convert_env (CInt 0) text)
    /\ (env = [] ->
        get_config env = Ok DEFAULT_CONFIG_DICT
        /\ config_record DEFAULT_CONFIG_DICT = Some DEFAULT_CONFIG).
Proof.
  intros env. split; [| split; [| split]].
  - intros cfg E. unfold get_config in E.
    pose proof (override_from_env_shape env DEFAULT_CONFIG_DICT cfg E) as Sh.
    unfold DEFAULT_CONFIG_DICT in *.
    repeat match goal with
           | H : Forall2 _ (_ :: _) _ |- _ =>
               inversion H as [| [? ?] [? ?] ? ? [? ?] ?]; subst; clear H
           | H : Forall2 _ [] _ |- _ => inversion H; subst; clear H
           end.
    cbn [fst snd] in *. subst.
    split; [reflexivity |].
    assert (T : forall d c text,
               (forall b, d <> CBool b) ->
               match assoc_get env text with
               | Some t => convert_env d t = Ok c
               | None => c = d
               end -> same_type d c = true).
    { intros d c text Hb Hm. destruct (assoc_get env text) as [t |].
      - exact (convert_env_type d c t Hb Hm).
      - subst c. destruct d; try reflexivity. }
    split.
    { repeat constructor; cbn [fst snd];
        match goal with
        | H : match assoc_get env ?k with _ => _ end |- same_type ?d ?c = true =>
            apply (T d c k); [intros b0; discriminate | exact H]
        end. }
    split.
    { intros key Hk. cbn [assoc_get].
      repeat match goal with
             | |- context [String.eqb ?k key] =>
                 destruct (String.eqb_spec k key) as [<- | _];
                 [match goal with
                  | H : match assoc_get env k with _ => _ end |- _ =>
                      rewrite Hk in H; rewrite H; reflexivity
                  end |]
             end.
      reflexivity. }
    split.
    { intros key text d Hk Hd. cbn [assoc_get] in Hd |- *.
      repeat match goal with
             | |- context [String.eqb ?k key] =>
                 destruct (String.eqb_spec k key) as [<- | _];
                 [match goal with
                  | H : match assoc_get env k with _ => _ end |- _ =>
                      rewrite Hk in H; injection Hd as <-;
                      eexists; split; [exact H | reflexivity]
                  end |]
             end.
      discriminate. }
    unfold config_record. cbn [assoc_get String.eqb Ascii.eqb Bool.eqb].
    repeat match goal with
           | H : match assoc_get env ?k with _ => _ end |- _ =>
               destruct (assoc_get env k); [cbn in H | subst]
           end.
    all: repeat match goal with
                | H : match ?x with Ok _ => _ | Raise _ => _ end = Ok _ |- _ =>
                    destruct x; [injection H as <- | discriminate H]
                end.
    all: eexists; reflexivity.
  - intros key text d e I G C.
    exact (override_from_env_raises env DEFAULT_CONFIG_DICT key text d e I G C).
  - intros b text. reflexivity.
  - intros ->. split; reflexivity.
Qed.


(** *** The model interface *)

(** X18. A structured call returns what the parsing chain returns. When the chain
    raises an [Exception], the error is printed, the model is asked once
    more with the same messages and its raw reply comes back as the degraded
    record of a [text] and an [error]; that second call is unprotected, so
    whatever it raises leaves the function. An interruption of the chain is
    not caught and nothing is printed. A degraded record has no [queries],
    so query expansion falls back on its text and does not raise. Without a
    schema the reply is wrapped as a record with the one key [text], and an
    empty system prompt is the same as none. *)
Theorem generate_structured_outcomes :
  forall (prompt : string) (system_prompt : option string) (schema : PyDict)
         (temperature : option R) (w : World W),
    let messages := structured_messages prompt system_prompt schema in
    let run :=
      ModelInterface_generate_structured prompt system_prompt (Some schema)
                                         temperature w in
    match chain_invoke messages temperature (ext w) with
    | (Ok v, x1) => run = (Ok v, mkWorld x1 (events w))
    | (Raise (Exc cls msg), x1) =>
        let printed :=
          (events w ++ [Print ("Error parsing JSON response: " ++ msg)])%list in
        match llm_invoke messages temperature x1 with
        | (Ok raw, x2) =>
            run = (Ok (JDict [("text", JStr raw); ("error", JStr msg)]),
                   mkWorld x2 printed)
            /\ forall query,
                exists qs,
                  extract_queries query [("text", JStr raw); ("error", JStr msg)]
                  = Ok qs
        | (Raise e, x2) => run = (Raise e, mkWorld x2 printed)
        end
    | (Raise e, x1) => run = (Raise e, mkWorld x1 (events w))
    end
    /\ ModelInterface_generate_structured prompt system_prompt None temperature w
       = match ModelInterface_generate prompt system_prompt temperature w with
         | (Ok text, w') => (Ok (JDict [("text", JStr text)]), w')
         | (Raise e, w') => (Raise e, w')
         end
    /\ ModelInterface_generate prompt (Some "") temperature
       = ModelInterface_generate prompt None temperature
    /\ structured_messages prompt (Some "") schema
       = structured_messages prompt None schema.
Proof.
  intros prompt system_prompt schema temperature w messages run.
  split; [| split; [| split; reflexivity]].
  - subst run messages.
    unfold ModelInterface_generate_structured, try_except_Exception, call.
    destruct (chain_invoke _ temperature (ext w)) as [[v | e] x1];
      [reflexivity |].
    destruct e as [cls msg | |]; cbn [is_Exception]; try reflexivity.
    unfold bind, print, emit. cbn [ext events exc_str].
    destruct (llm_invoke _ temperature x1) as [[raw | e] x2];
      [| reflexivity].
    split; [reflexivity |]. intros query. unfold extract_queries.
    cbn [dict_get String.eqb Ascii.eqb Bool.eqb].
    destruct (bracketed_list raw); [eexists; reflexivity |].
    destruct (stripped_lines raw); eexists; reflexivity.
  - unfold ModelInterface_generate_structured, bind.
    destruct (ModelInterface_generate prompt system_prompt temperature w)
      as [[text | e] w']; reflexivity.
Qed.

(** *** The interactive entry point *)

Lemma example_try_body_value :
  forall (w w' : World W) (v : option Z),
    example_try_body w = (Ok v, w') -> v = Some 0.
Proof.
  intros w w' v E. unfold example_try_body in E.
  apply bind_Ok_inv in E. destruct E as (text & w1 & _ & E).
  apply bind_Ok_inv in E. destruct E as (choice & w2 & _ & E).
  apply bind_Ok_inv in E. destruct E as (query & w3 & _ & E).
  apply bind_Ok_inv in E. destruct E as (u4 & w4 & _ & E).
  apply bind_Ok_inv in E. destruct E as (u5 & w5 & _ & E).
  apply bind_Ok_inv in E. destruct E as (out & w6 & ER & E).
  destruct out as [[result s] |].
  - apply bind_Ok_inv in E. destruct E as (u7 & w7 & _ & E).
    apply bind_Ok_inv in E. destruct E as (u8 & w8 & _ & E).
    apply bind_Ok_inv in E. destruct E as (u9 & w9 & _ & E).
    injection E as <- _. reflexivity.
  - exfalso.
    match type of ER with
    | research ?r ?q ?w0 = _ => apply (research_not_out_of_fuel r q w0)
    end.
    rewrite ER. reflexivity.
Qed.

(** X19. Once its import has succeeded, the interactive entry point returns 0
    or 1 whatever happens: 0 when the research ran to its end, 1 after an
    interruption as well as after any [Exception], an input that is no
    number included. Only a [SystemExit] raised inside passes through; the
    process never ends through the interrupt signal. *)
Theorem example_main_exit_status :
  forall (w : World W) (x' : W),
    import_deep_search (ext w) = (Ok tt, x') ->
    (fst (example_main w) = Ok (Some 0)
     \/ fst (example_main w) = Ok (Some 1)
     \/ exists code, fst (example_main w) = Raise (SystemExit code))
    /\ (exists code, run_example w = Some (Exited code))
    /\ run_example w <> Some KilledBySIGINT.
Proof.
  intros w x' Hi.
  assert (O : fst (example_main w) = Ok (Some 0)
              \/ fst (example_main w) = Ok (Some 1)
              \/ exists code, fst (example_main w) = Raise (SystemExit code)).
  { unfold example_main.
    erewrite bind_Ok by (apply call_Ok; exact Hi).
    erewrite bind_Ok by reflexivity.
    erewrite bind_Ok by reflexivity.
    erewrite bind_Ok by reflexivity.
    erewrite bind_Ok by reflexivity.
    unfold try_except_Interrupt_Exception.
    match goal with
    | |- context [example_try_body ?w0] =>
        destruct (example_try_body w0) as [[v | e] w2] eqn:EB
    end.
    - rewrite (example_try_body_value _ _ _ EB). left. reflexivity.
    - destruct e as [cls msg | | code].
      + right. left. reflexivity.
      + right. left. reflexivity.
      + right. right. exists code. reflexivity. }
  split; [exact O |]. unfold run_example.
  destruct O as [-> | [-> | (code & ->)]]; cbn [process_status];
    (split; [eexists; reflexivity | discriminate]).
Qed.


(** *** The command line entry point and the reuse of a researcher *)

(** X20. The command line entry point returns 0 when the research ran to its
    end and 1 after any [Exception]; whatever else leaves it is no
    [Exception]. Its import is inside the [try]: a failing import prints the
    error and gives 1 without anything else being printed. A command line
    that the parser refuses leaves through the parser's [SystemExit]. *)
Theorem main_exit_status :
  forall (cmdline : CommandLine) (w : World W),
    match cmdline with
    | ParserExit code => main cmdline w = (Raise (SystemExit code), w)
    | Parsed args =>
        (fst (main cmdline w) = Ok (Some 0)
         \/ fst (main cmdline w) = Ok (Some 1)
         \/ exists e, is_Exception e = false /\ fst (main cmdline w) = Raise e)
        /\ (forall cls msg x',
              import_deep_search (ext w) = (Raise (Exc cls msg), x') ->
              main cmdline w
              = (Ok (Some 1),
                 mkWorld x' (events w ++ [Print ("Error: " ++ msg)])))
    end.
Proof.
  intros [args | code] w; [| reflexivity]. split.
  - unfold main, try_except_Exception.
    destruct (main_try_body args w) as [[v | e] w'] eqn:E.
    + rewrite (main_try_body_value args w w' v E). left. reflexivity.
    + destruct e as [cls msg | | code].
      * right. left. reflexivity.
      * right. right. exists KeyboardInterrupt. split; reflexivity.
      * right. right. exists (SystemExit code). split; reflexivity.
  - intros cls msg x' Hi. unfold main, try_except_Exception, main_try_body.
    unfold bind at 1. unfold call at 1. rewrite Hi. reflexivity.
Qed.

Lemma research_finish_limits :
  forall (s s' : DeepResearcher) (ans : string) (w w' : World W),
    research_finish s w = (Ok (Some (ans, s')), w') ->
    max_steps s' = max_steps s /\ token_budget s' = token_budget s.
Proof.
  intros s s' ans w w' E. unfold research_finish in E.
  apply bind_Ok_inv in E. destruct E as (s2 & w2 & E1 & E2).
  injection E2 as _ <- _.
  destruct (research_complete s); cbn [negb] in E1.
  - injection E1 as <- _. split; reflexivity.
  - destruct (generate_final_answer_run _ _ _ _ E1) as (a & x' & _ & -> & _).
    split; reflexivity.
Qed.

(** X21. A researcher can be used again: a run leaves the step limit and the
    token budget as they were and the next run starts from a fresh memory
    and fresh counters, so it behaves as it would on the researcher that
    has not run yet. Nothing of an earlier run is seen by a later one. *)
Theorem research_reusable :
  forall (self s1 : DeepResearcher) (q1 a1 : string) (w w1 : World W),
    research self q1 w = (Ok (Some (a1, s1)), w1) ->
    max_steps s1 = max_steps self
    /\ token_budget s1 = token_budget self
    /\ forall (q2 : string) (w2 : World W),
        research s1 q2 w2 = research self q2 w2.
Proof.
  intros self s1 q1 a1 w w1 E.
  assert (L : max_steps s1 = max_steps self
              /\ token_budget s1 = token_budget self).
  { unfold research in E. rewrite research_with_unfold in E.
    apply bind_Ok_inv in E. destruct E as ([[reason s0] |] & w0 & E1 & E2);
      [| discriminate].
    destruct (research_loop_exit _ _ _ _ _ _ E1) as (I1 & I2 & _).
    destruct (research_finish_limits _ _ _ _ _ E2) as (F1 & F2).
    cbn in I1, I2. split; congruence. }
  destruct L as (L1 & L2). split; [exact L1 | split; [exact L2 |]].
  intros q2 w2. unfold research, enough_fuel, research_with, research_reset.
  rewrite L1, L2. reflexivity.
Qed.


(** *** The answer action *)

Lemma plan_answer_facts :
  forall (self : DeepResearcher) (params : Params),
    _plan_next_action self = Ok (ANSWER, params) -> facts (memory self) <> [].
Proof.
  intros self params E H. unfold _plan_next_action, get_summary in E.
  cbn [s_facts] in E. rewrite H in E. cbn in E. discriminate.
Qed.

Lemma research_loop_answered :
  forall (fuel : nat) (self s1 : DeepResearcher) (w w1 : World W),
    research_complete self = false ->
    research_loop fuel self w = (Ok (Some (ExitAnswered, s1)), w1) ->
    facts (memory s1) <> [].
Proof.
  induction fuel as [| fuel IH]; intros self s1 w w1 RC E; [discriminate |].
  cbn [research_loop] in E. rewrite RC in E. cbn [negb andb] in E.
  destruct (current_step self <? max_steps self); [| discriminate].
  destruct (_ >=? _); [discriminate |].
  destruct (_plan_next_action _) as [[action params] | e] eqn:EP;
    [| discriminate].
  apply bind_Ok_inv in E. destruct E as (self2 & w2 & E1 & E2).
  destruct action.
  - destruct (execute_search_memory _ _ _ _ _ E1) as (m' & ->).
    eapply IH; [| exact E2]. exact RC.
  - injection E1 as <- _. eapply IH; [| exact E2]. exact RC.
  - destruct (execute_reason_memory _ _ _ _ _ E1) as (m' & ->).
    eapply IH; [| exact E2]. exact RC.
  - apply bind_Ok_inv in E1. destruct E1 as (s & w0 & E1 & E3).
    injection E3 as <- _. unfold _execute_answer in E1.
    destruct (generate_final_answer_run _ _ _ _ E1) as (a & x' & _ & -> & _).
    destruct fuel as [| fuel']; [discriminate |].
    rewrite research_loop_complete in E2 by reflexivity.
    injection E2 as <- _.
    exact (plan_answer_facts _ params EP).
Qed.

(** X22. The answer action runs only on a memory that holds a fact: when the
    loop of [research] is left because the answer action ran, the memory is
    not empty. So, with a positive token budget, a run that ends without any
    fact used every step it was allowed (each of them a search) and its
    answer comes from the final generation over no facts. *)
Theorem answer_needs_facts :
  forall (self s1 : DeepResearcher) (query : string) (fuel : nat)
         (reason : LoopExit) (w w1 : World W),
    research_loop fuel (research_start self query) w
    = (Ok (Some (reason, s1)), w1) ->
    (reason = ExitAnswered -> facts (memory s1) <> [])
    /\ (0 < token_budget self -> facts (memory s1) = [] ->
        reason = ExitStepLimit
        /\ research_complete s1 = false
        /\ current_step s1 = Z.max 0 (max_steps self)).
Proof.
  intros self s1 query fuel reason w w1 E.
  assert (A : reason = ExitAnswered -> facts (memory s1) <> []).
  { intros ->.
    exact (research_loop_answered fuel (research_start self query) s1 w w1
                                  eq_refl E). }
  split; [exact A |]. intros Hb Hf.
  destruct (research_loop_exit _ _ _ _ _ _ E)
    as (_ & _ & _ & _ & I5 & I6 & I7 & _).
  cbn in I5, I6, I7. destruct reason.
  - exfalso. exact (A eq_refl Hf).
  - destruct I7 as [RC L]. split; [reflexivity | split; [exact RC | lia]].
  - lia.
Qed.

End Program.

(* ================================================================== *)
(** ** The properties on the stand-in collaborators *)



Lemma memory_capacity_bound_witness :
  0 <= MAX_MEMORY_ITEMS DEFAULT_CONFIG
  /\ exists (m : ResearchMemory) (w' : World unit),
      run_ops unit DEFAULT_CONFIG Stub.encode_text
              [OpAddQuestion "NVIDIA outlook";
               OpAddFact "NVIDIA beats estimates" "Yahoo Finance News" None;
               OpAddFact "NVIDIA beats estimates again" "Reasoning" None]
              Stub.world0
      = (Ok m, w')
      /\ Z.of_nat (List.length (facts m)) <= max_items m
      /\ Z.of_nat (List.length (questions m)) <= max_items m.
Proof.
  assert (H : 0 <= MAX_MEMORY_ITEMS DEFAULT_CONFIG) by (cbn; lia).
  split; [exact H |].
  destruct (memory_capacity_bound unit DEFAULT_CONFIG Stub.encode_text H)
    as (T & B & _).
  match goal with
  | |- exists m w', run_ops _ _ _ ?ops ?w = _ /\ _ =>
      destruct (T ops w) as (m & w' & E)
  end.
  exists m, w'. split; [exact E |].
  exact (proj2 (B _ _ _ _ E)).
Defined.


Lemma token_budget_never_exceeded_witness :
  0 < token_budget (DeepResearcher_init DEFAULT_CONFIG (Some 10))
  /\ total_tokens_used
       (research_start DEFAULT_CONFIG
                       (DeepResearcher_init DEFAULT_CONFIG (Some 10))
                       "NVIDIA outlook")
     = 0.
Proof.
  assert (H : 0 < token_budget (DeepResearcher_init DEFAULT_CONFIG (Some 10)))
    by (cbn; lia).
  split; [exact H |].
  exact (proj1 (token_budget_never_exceeded
                  unit DEFAULT_CONFIG Stub.encode_text Stub.model_generate
                  Stub.structured_raw_lines Stub.yahoo_invoke Stub.json_loads
                  (DeepResearcher_init DEFAULT_CONFIG (Some 10))
                  "NVIDIA outlook" Stub.world0 H)).
Defined.



Lemma research_terminates_and_finalizes_witness :
  exists (s' : DeepResearcher) (w' : World unit),
    research unit DEFAULT_CONFIG Stub.encode_text Stub.model_generate
             Stub.structured_raw_lines Stub.yahoo_invoke Stub.json_loads
             (DeepResearcher_init DEFAULT_CONFIG (Some 1))
             "NVIDIA outlook" Stub.world0
    = (Ok (Some ("NVIDIA's outlook remains strong.", s')), w').
Proof.
  destruct (research_terminates_and_finalizes
              unit DEFAULT_CONFIG Stub.encode_text Stub.model_generate
              Stub.structured_raw_lines Stub.yahoo_invoke Stub.json_loads
              (DeepResearcher_init DEFAULT_CONFIG (Some 1))
              "NVIDIA outlook" Stub.world0)
    as (_ & _ & _ & _ & H).
  rewrite (H eq_refl ltac:(cbn; lia)).
  destruct (execute_search_Ok
              unit DEFAULT_CONFIG Stub.encode_text Stub.structured_raw_lines
              Stub.yahoo_invoke Stub.json_loads
              (set_current_step
                 (research_start DEFAULT_CONFIG
                                 (DeepResearcher_init DEFAULT_CONFIG (Some 1))
                                 "NVIDIA outlook") 1)
              [("query", "NVIDIA outlook")] Stub.world0)
    as (s2 & w2 & ES).
  - intros q x. eexists. eexists. reflexivity.
  - eexists. eexists. reflexivity.
  - unfold bind at 1. rewrite ES. eexists. eexists. reflexivity.
Defined.

(** C10. The command-line entry point exits with 0 after a research that
    succeeded and with 1 after an [Exception], but it does not catch
    [KeyboardInterrupt]: interrupted while it waits for the model, [main]
    returns nothing, the interruption leaves it and the process ends through
    the interrupt signal instead of exit code 1. The interactive entry point,
    interrupted at the same place, returns 1. *)
Theorem main_interrupted_exit_status :
  fst (main unit DEFAULT_CONFIG Stub.encode_text Stub.model_generate
            Stub.structured_interrupted Stub.yahoo_invoke Stub.json_loads
            Stub.import_deep_search (Parsed Stub.args0) Stub.world0)
  = Raise KeyboardInterrupt
  /\ run_main unit DEFAULT_CONFIG Stub.encode_text Stub.model_generate
              Stub.structured_interrupted Stub.yahoo_invoke Stub.json_loads
              Stub.import_deep_search (Parsed Stub.args0) Stub.world0
     = Some KilledBySIGINT
  /\ run_main unit DEFAULT_CONFIG Stub.encode_text Stub.model_generate
              Stub.structured_interrupted Stub.yahoo_invoke Stub.json_loads
              Stub.import_deep_search (Parsed Stub.args0) Stub.world0
     <> Some (Exited 1)
  /\ run_example unit DEFAULT_CONFIG Stub.encode_text Stub.model_generate
                 Stub.structured_interrupted Stub.yahoo_invoke Stub.json_loads
                 Stub.import_deep_search Stub.py_input Stub.py_int Stub.world0
     = Some (Exited 1).
Proof.
  split; [reflexivity | split; [reflexivity | split; [| reflexivity]]].
  intros H. discriminate H.
Qed.

(** *** The end-to-end scenario of the specification

    One step allowed, a search backend with two articles and a model that
    always gives the same synthesis: one search, then the forced final
    answer; the answer is the synthesis and the memory holds the two
    articles with sources of the form provider - title. *)

Lemma norm_unit_1 : np_linalg_norm [1%R; 0%R] = 1%R.
Proof.
  unfold np_linalg_norm. cbn [np_dot].
  replace (1 * 1 + (0 * 0 + 0))%R with 1%R by lra. apply sqrt_1.
Qed.

Lemma norm_unit_2 : np_linalg_norm [0%R; 1%R] = 1%R.
Proof.
  unfold np_linalg_norm. cbn [np_dot].
  replace (0 * 0 + (1 * 1 + 0))%R with 1%R by lra. apply sqrt_1.
Qed.

Lemma second_article_is_new :
  forall w : World unit,
    is_duplicate unit DEFAULT_CONFIG Stub.encode_two
                 "AMD launches new chip: Shares rose."
                 ["NVIDIA beats estimates: Revenue grew."] None w
    = (Ok false,
       after_embedding unit w ["AMD launches new chip: Shares rose.";
                               "NVIDIA beats estimates: Revenue grew."]).
Proof.
  intros w. rewrite is_duplicate_run by discriminate. f_equal. f_equal.
  unfold similarities_to. cbn [map]. unfold Stub.encode_two. cbn [String.eqb].
  cbn.
  rewrite cosine_similarity_Num
    by (rewrite ?norm_unit_1, ?norm_unit_2; lra).
  rewrite norm_unit_1, norm_unit_2. cbn [np_dot np_ge]. unfold Rleb.
  destruct (Rle_dec _ _) as [L | _]; [| reflexivity]. exfalso. lra.
Qed.

Example end_to_end_single_step :
  exists (s' : DeepResearcher) (w' : World unit),
    research unit DEFAULT_CONFIG Stub.encode_two Stub.model_generate
             Stub.structured_synthesis Stub.yahoo_two_articles Stub.json_loads
             (DeepResearcher_init DEFAULT_CONFIG (Some 1))
             "NVIDIA outlook" Stub.world0
    = (Ok (Some ("NVIDIA's outlook remains strong.", s')), w')
    /\ current_step s' = 1
    /\ map content (facts (memory s'))
       = ["NVIDIA beats estimates: Revenue grew.";
          "AMD launches new chip: Shares rose."]
    /\ map source (facts (memory s'))
       = ["Yahoo Finance News - NVIDIA beats estimates";
          "Yahoo Finance News - AMD launches new chip"].
Proof.
  rewrite research_single_step by (cbn; lia).
  unfold _execute_search.
  set (a1 := mkArticle "NVIDIA beats estimates" "Revenue grew."
                       "Yahoo Finance News").
  set (a2 := mkArticle "AMD launches new chip" "Shares rose."
                       "Yahoo Finance News").
  set (f1 := mkItem "NVIDIA beats estimates: Revenue grew."
                    "Yahoo Finance News - NVIDIA beats estimates" []).
  set (f2 := mkItem "AMD launches new chip: Shares rose."
                    "Yahoo Finance News - AMD launches new chip" []).
  set (m1 := mkMemory 100 [] ["NVIDIA outlook"] [] ["NVIDIA outlook"] []).
  set (w3 := after_embedding unit Stub.world0
                             ["AMD launches new chip: Shares rose.";
                              "NVIDIA beats estimates: Revenue grew."]).
  erewrite bind_Ok with (a := set_memory _ (set_facts m1 [f1; f2])) (w1 := w3).
  2: { erewrite bind_Ok
         with (a := [JStr "NVIDIA's outlook remains strong."])
              (w1 := Stub.world0) by reflexivity.
       erewrite bind_Ok with (a := (true, m1)) (w1 := Stub.world0)
         by reflexivity.
       erewrite bind_Ok with (a := [a1; a2]) (w1 := Stub.world0)
         by reflexivity.
       erewrite bind_Ok with (a := set_facts m1 [f1; f2]) (w1 := w3).
       2: { cbn [for_each snd].
            erewrite bind_Ok with (a := set_facts m1 [f1]) (w1 := Stub.world0)
              by reflexivity.
            erewrite bind_Ok with (a := set_facts m1 [f1; f2]) (w1 := w3).
            2: { erewrite bind_Ok
                   with (a := (true, set_facts m1 [f1; f2])) (w1 := w3).
                 2: { unfold add_fact.
                      erewrite bind_Ok with (a := false) (w1 := w3)
                        by (apply second_article_is_new).
                      reflexivity. }
                 reflexivity. }
            reflexivity. }
       reflexivity. }
  eexists. eexists. split; [reflexivity | repeat split].
Qed.



(** *** The further properties on the stand-in collaborators *)

(** A run of one step on the stand-ins returns the model's synthesis. *)
Lemma stub_research_single_step :
  exists (s' : DeepResearcher) (w' : World unit),
    research unit DEFAULT_CONFIG Stub.encode_text Stub.model_generate
             Stub.structured_raw_lines Stub.yahoo_invoke Stub.json_loads
             (DeepResearcher_init DEFAULT_CONFIG (Some 1))
             "NVIDIA outlook" Stub.world0
    = (Ok (Some ("NVIDIA's outlook remains strong.", s')), w').
Proof.
  rewrite research_single_step by (cbn; lia).
  destruct (execute_search_Ok
              unit DEFAULT_CONFIG Stub.encode_text Stub.structured_raw_lines
              Stub.yahoo_invoke Stub.json_loads
              (set_current_step
                 (research_start DEFAULT_CONFIG
                                 (DeepResearcher_init DEFAULT_CONFIG (Some 1))
                                 "NVIDIA outlook") 1)
              [("query", "NVIDIA outlook")] Stub.world0)
    as (s2 & w2 & ES).
  - intros q x. eexists. eexists. reflexivity.
  - eexists. eexists. reflexivity.
  - unfold bind at 1. rewrite ES. eexists. eexists. reflexivity.
Qed.






Lemma memory_lists_bounded_witness :
  0 <= MAX_MEMORY_ITEMS DEFAULT_CONFIG
  /\ exists (m : ResearchMemory) (w' : World unit),
      run_ops unit DEFAULT_CONFIG Stub.encode_text
              [OpAddSearchQuery "NVIDIA outlook";
               OpAddVisitedSource "Yahoo Finance News";
               OpAddQuestion "NVIDIA outlook";
               OpMarkQuestionAnswered "NVIDIA outlook"]
              Stub.world0
      = (Ok m, w')
      /\ Z.of_nat (List.length (visited_sources m)) <= max_items m.
Proof.
  assert (H : 0 <= MAX_MEMORY_ITEMS DEFAULT_CONFIG) by (cbn; lia).
  split; [exact H |].
  match goal with
  | |- exists m w', run_ops _ _ _ ?ops ?w = _ /\ _ =>
      destruct (run_ops_Ok unit DEFAULT_CONFIG Stub.encode_text ops w)
        as (m & w' & E)
  end.
  exists m, w'. split; [exact E |].
  exact (proj2 (proj2 (proj2 (memory_lists_bounded
                                unit DEFAULT_CONFIG Stub.encode_text H
                                _ _ _ _ E)))).
Defined.

Lemma research_without_steps_witness :
  max_steps (DeepResearcher_init DEFAULT_CONFIG (Some (-1))) <= 0
  /\ fst (research unit DEFAULT_CONFIG Stub.encode_text Stub.model_generate
                   Stub.structured_raw_lines Stub.yahoo_invoke Stub.json_loads
                   (DeepResearcher_init DEFAULT_CONFIG (Some (-1)))
                   "NVIDIA outlook" Stub.world0)
     = Ok (Some ("NVIDIA's outlook remains strong.",
                 set_answer
                   (research_start DEFAULT_CONFIG
                                   (DeepResearcher_init DEFAULT_CONFIG (Some (-1)))
                                   "NVIDIA outlook")
                   "NVIDIA's outlook remains strong.")).
Proof.
  assert (H : max_steps (DeepResearcher_init DEFAULT_CONFIG (Some (-1))) <= 0)
    by (cbn; lia).
  split; [exact H |].
  rewrite (proj1 (proj2 (research_without_steps
                           unit DEFAULT_CONFIG Stub.encode_text
                           Stub.model_generate Stub.structured_raw_lines
                           Stub.yahoo_invoke Stub.json_loads)
                        (DeepResearcher_init DEFAULT_CONFIG (Some (-1)))
                        "NVIDIA outlook" Stub.world0)
                 H).
  reflexivity.
Defined.



Lemma execute_search_effect_witness :
  exists (s' : DeepResearcher) (w' : World unit),
    _execute_search unit DEFAULT_CONFIG Stub.encode_text
                    Stub.structured_raw_lines Stub.yahoo_invoke Stub.json_loads
                    (research_start DEFAULT_CONFIG
                                    (DeepResearcher_init DEFAULT_CONFIG (Some 10))
                                    "NVIDIA outlook")
                    [("query", "NVIDIA outlook")] Stub.world0
    = (Ok s', w')
    /\ questions (memory s') = ["NVIDIA outlook"]
    /\ visited_sources (memory s') = [].
Proof.
  destruct (execute_search_Ok
              unit DEFAULT_CONFIG Stub.encode_text Stub.structured_raw_lines
              Stub.yahoo_invoke Stub.json_loads
              (research_start DEFAULT_CONFIG
                              (DeepResearcher_init DEFAULT_CONFIG (Some 10))
                              "NVIDIA outlook")
              [("query", "NVIDIA outlook")] Stub.world0)
    as (s2 & w2 & ES).
  - intros q x. eexists. eexists. reflexivity.
  - eexists. eexists. reflexivity.
  - exists s2, w2. split; [exact ES |].
    destruct (execute_search_effect
                unit DEFAULT_CONFIG Stub.encode_text Stub.structured_raw_lines
                Stub.yahoo_invoke Stub.json_loads _ _ _ _ _ ES)
      as (_ & _ & Q & _ & V & _).
    split; [exact Q | exact V].
Defined.

Lemma get_config_overrides_witness :
  get_config Stub.py_int (fun _ => Ok 0%R) [] = Ok DEFAULT_CONFIG_DICT
  /\ config_record DEFAULT_CONFIG_DICT = Some DEFAULT_CONFIG.
Proof.
  exact (proj2 (proj2 (proj2 (get_config_overrides
                                Stub.py_int (fun _ => Ok 0%R) [])))
               eq_refl).
Defined.

Lemma example_main_exit_status_witness :
  run_example unit DEFAULT_CONFIG Stub.encode_text Stub.model_generate
              Stub.structured_interrupted Stub.yahoo_invoke Stub.json_loads
              Stub.import_deep_search Stub.py_input Stub.py_int Stub.world0
  <> Some KilledBySIGINT.
Proof.
  exact (proj2 (proj2 (example_main_exit_status
                         unit DEFAULT_CONFIG Stub.encode_text
                         Stub.model_generate Stub.structured_interrupted
                         Stub.yahoo_invoke Stub.json_loads
                         Stub.import_deep_search Stub.py_input Stub.py_int
                         Stub.world0 tt eq_refl))).
Defined.

Lemma research_reusable_witness :
  exists (s1 : DeepResearcher) (w1 : World unit),
    research unit DEFAULT_CONFIG Stub.encode_text Stub.model_generate
             Stub.structured_raw_lines Stub.yahoo_invoke Stub.json_loads
             (DeepResearcher_init DEFAULT_CONFIG (Some 1))
             "NVIDIA outlook" Stub.world0
    = (Ok (Some ("NVIDIA's outlook remains strong.", s1)), w1)
    /\ max_steps s1 = 1
    /\ research unit DEFAULT_CONFIG Stub.encode_text Stub.model_generate
                Stub.structured_raw_lines Stub.yahoo_invoke Stub.json_loads
                s1 "AMD outlook" w1
       = research unit DEFAULT_CONFIG Stub.encode_text Stub.model_generate
                  Stub.structured_raw_lines Stub.yahoo_invoke Stub.json_loads
                  (DeepResearcher_init DEFAULT_CONFIG (Some 1))
                  "AMD outlook" w1.
Proof.
  destruct stub_research_single_step as (s1 & w1 & E).
  exists s1, w1. split; [exact E |].
  destruct (research_reusable
              unit DEFAULT_CONFIG Stub.encode_text Stub.model_generate
              Stub.structured_raw_lines Stub.yahoo_invoke Stub.json_loads
              _ _ _ _ _ _ E)
    as (L1 & _ & R).
  split; [exact L1 | exact (R "AMD outlook" w1)].
Defined.


Lemma answer_needs_facts_witness :
  exists (reason : LoopExit) (s1 : DeepResearcher) (w1 : World unit),
    research_loop unit DEFAULT_CONFIG Stub.encode_text Stub.model_generate
                  Stub.structured_raw_lines Stub.yahoo_invoke Stub.json_loads
                  (enough_fuel (DeepResearcher_init DEFAULT_CONFIG (Some 1)))
                  (research_start DEFAULT_CONFIG
                                  (DeepResearcher_init DEFAULT_CONFIG (Some 1))
                                  "NVIDIA outlook")
                  Stub.world0
    = (Ok (Some (reason, s1)), w1)
    /\ (reason = ExitAnswered -> facts (memory s1) <> []).
Proof.
  destruct stub_research_single_step as (s' & w' & E).
  unfold research in E. rewrite research_with_unfold in E.
  apply bind_Ok_inv in E. destruct E as ([[reason s1] |] & w1 & E1 & E2);
    [| discriminate].
  exists reason, s1, w1. split; [exact E1 |].
  exact (proj1 (answer_needs_facts
                  unit DEFAULT_CONFIG Stub.encode_text Stub.model_generate
                  Stub.structured_raw_lines Stub.yahoo_invoke Stub.json_loads
                  _ _ _ _ _ _ _ E1)).
Defined.
